(** * serial_viewer: the serial grid viewer of [color_added.py]

    A shallow embedding of the script's three parts and the properties
    its specification states about them:

    - [SerialReader], the worker thread that opens a serial port, reads
      values and publishes tagged messages on a queue;
    - [GridApp], the Tk controller that owns the port and baud fields, the
      20x10 grid of labels, the write cursor and the status text;
    - the interleaving of the controller's callbacks with the worker
      threads it starts ([World]).

    Tk widgets are reduced to the state that the script reads or writes:
    a label is its [text] and [bg] options, a [StringVar] is its string.
    The serial device is the environment: what [serial.Serial], [read] and
    [readline] return or raise is given to the model as an outcome. *)

From Stdlib Require Import ZArith String Ascii List Bool Lia DecimalString.
From stdpp Require Import base option list.
Import ListNotations.

Local Open Scope string_scope.
Local Open Scope Z_scope.

(** ** Python builtins used by the script *)

(** A [str] is held as the bytes of its UTF-8 encoding.  The tables of
    white space and of decimal digits are those of CPython 3.11 (Unicode
    14.0), and the cap on the digits of [int] is the interpreter's
    default. *)

Module Py.

Definition byte (c : ascii) : Z := Z.of_nat (nat_of_ascii c).

Definition chr (b : Z) : ascii := ascii_of_nat (Z.to_nat b).

(** [Py_ISSPACE]: the six characters [int()] skips around a number. *)
Definition is_c_space (c : ascii) : bool :=
  let n := Z.of_nat (nat_of_ascii c) in
  ((9 <=? n) && (n <=? 13)) || (n =? 32).

(** [Py_UNICODE_ISSPACE] on a code point, the test of [str.isspace] and
    [str.strip]: in the ASCII range the six characters above and the four
    separators 0x1c-0x1f; beyond it U+0085, U+00A0, U+1680,
    U+2000-U+200A, U+2028, U+2029, U+202F, U+205F and U+3000. *)
Definition is_space_cp (cp : Z) : bool :=
  ((9 <=? cp) && (cp <=? 13)) || ((28 <=? cp) && (cp <=? 32))
  || (cp =? 133) || (cp =? 160) || (cp =? 5760)
  || ((8192 <=? cp) && (cp <=? 8202))
  || (cp =? 8232) || (cp =? 8233) || (cp =? 8239) || (cp =? 8287) || (cp =? 12288).

(** [str.isspace] on an ASCII character. *)
Definition is_str_space (c : ascii) : bool := is_space_cp (byte c).

(** The code points of the digit zero of every script with decimal digits
    beyond ASCII; the nine that follow each are its digits one to nine. *)
Definition decimal_zeros : list Z :=
  [1632; 1776; 1984; 2406; 2534; 2662; 2790; 2918; 3046; 3174; 3302; 3430;
   3558; 3664; 3792; 3872; 4160; 4240; 6112; 6160; 6470; 6608; 6784; 6800;
   6992; 7088; 7232; 7248; 42528; 43216; 43264; 43472; 43504; 43600; 44016;
   65296; 66720; 68912; 69734; 69872; 69942; 70096; 70384; 70736; 70864;
   71248; 71360; 71472; 71904; 72016; 72784; 73040; 73120; 92768; 92864;
   93008; 120782; 120792; 120802; 120812; 120822; 123200; 123632; 125264;
   130032].

(** [Py_UNICODE_TODECIMAL]: the value of a decimal digit. *)
Definition decimal_cp (cp : Z) : option Z :=
  if (48 <=? cp) && (cp <=? 57) then Some (cp - 48)
  else
    match List.find (fun z => (z <=? cp) && (cp <=? z + 9)) decimal_zeros with
    | Some z => Some (cp - z)
    | None => None
    end.

Definition is_cont (b : Z) : bool := (128 <=? b) && (b <=? 191).

(** The first character of a string: its code point and the number of
    bytes it takes; [(-1, 1)] for a byte that begins no character of a
    well-formed encoding. *)
Definition head_cp (s : string) : Z * nat :=
  match s with
  | EmptyString => (-1, 0%nat)
  | String c1 r1 =>
      let b1 := byte c1 in
      if b1 <? 128 then (b1, 1%nat)
      else
        match r1 with
        | String c2 r2 =>
            let b2 := byte c2 in
            if (194 <=? b1) && (b1 <=? 223) && is_cont b2 then
              ((b1 - 192) * 64 + (b2 - 128), 2%nat)
            else
              match r2 with
              | String c3 r3 =>
                  let b3 := byte c3 in
                  let cp3 := ((b1 - 224) * 64 + (b2 - 128)) * 64 + (b3 - 128) in
                  if (224 <=? b1) && (b1 <=? 239) && is_cont b2 && is_cont b3
                     && (2048 <=? cp3) && negb ((55296 <=? cp3) && (cp3 <=? 57343))
                  then (cp3, 3%nat)
                  else
                    match r3 with
                    | String c4 _ =>
                        let b4 := byte c4 in
                        let cp4 := (((b1 - 240) * 64 + (b2 - 128)) * 64 + (b3 - 128)) * 64
                                   + (b4 - 128) in
                        if (240 <=? b1) && (b1 <=? 244) && is_cont b2 && is_cont b3
                           && is_cont b4 && (65536 <=? cp4) && (cp4 <=? 1114111)
                        then (cp4, 4%nat)
                        else (-1, 1%nat)
                    | EmptyString => (-1, 1%nat)
                    end
              | EmptyString => (-1, 1%nat)
              end
        | EmptyString => (-1, 1%nat)
        end
  end.

(** The code points of a string; [skip] bytes of the character in hand are
    still to be passed. *)
Fixpoint code_points_from (skip : nat) (s : string) : list Z :=
  match s with
  | EmptyString => []
  | String _ r =>
      match skip with
      | S k => code_points_from k r
      | O => let '(cp, n) := head_cp s in cp :: code_points_from (n - 1) r
      end
  end.

Definition code_points (s : string) : list Z := code_points_from 0 s.

Fixpoint is_ascii (s : string) : bool :=
  match s with
  | EmptyString => true
  | String c r => (byte c <? 128) && is_ascii r
  end.

Fixpoint lstrip (sp : ascii -> bool) (s : string) : string :=
  match s with
  | String c r => if sp c then lstrip sp r else s
  | EmptyString => EmptyString
  end.

(** Removes the trailing characters satisfying [sp]: a character is kept
    when it is not a space or when something is kept after it. *)
Fixpoint rstrip (sp : ascii -> bool) (s : string) : string :=
  match s with
  | String c r =>
      match rstrip sp r with
      | EmptyString => if sp c then EmptyString else String c EmptyString
      | r' => String c r'
      end
  | EmptyString => EmptyString
  end.

(** [s.lstrip()]: the white-space characters at the front are dropped. *)
Fixpoint lstrip_from (skip : nat) (s : string) : string :=
  match s with
  | EmptyString => EmptyString
  | String _ r =>
      match skip with
      | S k => lstrip_from k r
      | O => let '(cp, n) := head_cp s in
             if is_space_cp cp then lstrip_from (n - 1) r else s
      end
  end.

(** Every character of the string is white space. *)
Fixpoint all_space_from (skip : nat) (s : string) : bool :=
  match s with
  | EmptyString => true
  | String _ r =>
      match skip with
      | S k => all_space_from k r
      | O => let '(cp, n) := head_cp s in
             is_space_cp cp && all_space_from (n - 1) r
      end
  end.

(** [s.rstrip()]: the longest end of the string made of white-space
    characters is dropped. *)
Fixpoint rstrip_space (s : string) : string :=
  match s with
  | EmptyString => EmptyString
  | String c r => if all_space_from 0 s then EmptyString else String c (rstrip_space r)
  end.

(** [s.strip()] *)
Definition strip (s : string) : string := rstrip_space (lstrip_from 0 s).

Definition is_digit (c : ascii) : bool :=
  let n := Z.of_nat (nat_of_ascii c) in (48 <=? n) && (n <=? 57).

Definition digit_val (c : ascii) : Z := Z.of_nat (nat_of_ascii c) - 48.

(** The digit part of a base-10 literal: decimal digits, with single
    underscores allowed between two digits.  [prev] tells whether the
    previous character was a digit. *)
Fixpoint int_digits (acc : Z) (prev : bool) (s : string) : option Z :=
  match s with
  | EmptyString => if prev then Some acc else None
  | String c r =>
      if is_digit c then int_digits (10 * acc + digit_val c) true r
      else if Ascii.eqb c "_" then
        (if prev then int_digits acc false r else None)
      else None
  end.

(** The number of digit characters, leading zeros included, underscores
    not. *)
Fixpoint count_digits (s : string) : Z :=
  match s with
  | EmptyString => 0
  | String c r => (if is_digit c then 1 else 0) + count_digits r
  end.

(** [sys.get_int_max_str_digits()], which the script leaves at its
    default. *)
Definition int_max_str_digits : Z := 4300.

(** [PyLong_FromString] in base 10 on an ASCII buffer: surrounding C white
    space is skipped, then an optional sign, then the digits; more than
    [int_max_str_digits] digits are refused. *)
Definition int_ascii (s : string) : option Z :=
  let body (r : string) : option Z :=
    if int_max_str_digits <? count_digits r then None else int_digits 0 false r in
  match rstrip is_c_space (lstrip is_c_space s) with
  | String "-" r => option_map Z.opp (body r)
  | String "+" r => body r
  | r => body r
  end.

(** [_PyUnicode_TransformDecimalAndSpaceToASCII] on a string that is not
    ASCII: characters below 127 are kept, white space becomes a space, a
    decimal digit becomes its ASCII digit, and the first character that is
    none of these becomes a question mark that ends the buffer. *)
Fixpoint to_ascii_decimal (cps : list Z) : string :=
  match cps with
  | [] => EmptyString
  | cp :: r =>
      if (0 <=? cp) && (cp <? 127) then String (chr cp) (to_ascii_decimal r)
      else if is_space_cp cp then String " " (to_ascii_decimal r)
      else
        match decimal_cp cp with
        | Some d => String (chr (48 + d)) (to_ascii_decimal r)
        | None => "?"
        end
  end.

(** [int(s)] for a [str]: [Some v] when it returns [v], [None] when it
    raises [ValueError]. *)
Definition int (s : string) : option Z :=
  int_ascii (if is_ascii s then s else to_ascii_decimal (code_points s)).

(** [str(n)] for an integer. *)
Definition str (n : Z) : string :=
  match n with
  | Z0 => "0"
  | Zpos p => NilEmpty.string_of_uint (Pos.to_uint p)
  | Zneg p => String "-" (NilEmpty.string_of_uint (Pos.to_uint p))
  end.

(** [seq[i]] on a sequence of length [len]: the position read, with
    Python's negative indices; [None] is [IndexError]. *)
Definition index (len : nat) (i : Z) : option nat :=
  if (0 <=? i) && (i <? Z.of_nat len) then Some (Z.to_nat i)
  else if (- Z.of_nat len <=? i) && (i <? 0) then Some (Z.to_nat (i + Z.of_nat len))
  else None.

(** [bytes.decode("ascii", errors="ignore")]: bytes above 127 are dropped. *)
Fixpoint decode_ascii_ignore (bs : list Z) : string :=
  match bs with
  | [] => EmptyString
  | b :: r =>
      if (0 <=? b) && (b <? 128)
      then String (ascii_of_nat (Z.to_nat b)) (decode_ascii_ignore r)
      else decode_ascii_ignore r
  end.

End Py.

(** ** Configuration *)

Definition DEFAULT_PORT : string := "COM8".
Definition DEFAULT_BAUD : Z := 115200.
Definition ROWS : Z := 20.
Definition COLS : Z := 10.
Definition TOTAL_CELLS : Z := ROWS * COLS.
Definition TEXT_MODE : bool := false.

(** A queue message is the pair [(kind, payload)] the script puts. *)
Definition msg : Type := string * string.

(** [out_q.put(m)] on the unbounded FIFO queue. *)
Definition put (m : msg) (q : list msg) : list msg := (q ++ [m])%list.

(** ** SerialReader: the worker thread *)

(** The [serial.Serial] object, as far as the script looks at it. *)
Record Serial := { is_open : bool }.

(** Where the thread is in [run]: not started, started and about to open
    the port, at the head of the [while] loop, or returned. *)
Inductive Pc := NotStarted | Opening | Looping | Finished.

Record SerialReader := {
  port : string;
  baud : Z;
  text_mode : bool;
  _stop : bool;              (* the threading.Event *)
  ser : option Serial;       (* None until the port has been opened *)
  pc : Pc
}.

Definition set__stop (self : SerialReader) (b : bool) : SerialReader :=
  {| port := port self; baud := baud self; text_mode := text_mode self;
     _stop := b; ser := ser self; pc := pc self |}.
Definition set_ser (self : SerialReader) (s : option Serial) : SerialReader :=
  {| port := port self; baud := baud self; text_mode := text_mode self;
     _stop := _stop self; ser := s; pc := pc self |}.
Definition set_pc (self : SerialReader) (p : Pc) : SerialReader :=
  {| port := port self; baud := baud self; text_mode := text_mode self;
     _stop := _stop self; ser := ser self; pc := p |}.

(** What the device does at a call of the script, chosen by the
    environment.  [serial.Serial(...)] returns the open port, raises
    [serial.SerialException], or raises another exception (a [ValueError]
    for a baud rate it does not accept, such as a negative one). *)
Inductive open_outcome :=
  | OpenOk
  | OpenSerialException (e : string)
  | OpenRaises.

Inductive read_outcome :=
  | ReadReturns (data : list Z)       (* the bytes returned; [] on timeout *)
  | ReadSerialException (e : string)
  | ReadException.                    (* any other exception *)

Inductive thread_event :=
  | TOpen (o : open_outcome)          (* the try block that opens the port *)
  | TTick (r : read_outcome).         (* one test of the loop condition and,
                                         when it holds, one loop body *)

Module SerialReader.

(** [__init__] *)
Definition init (port : string) (baud : Z) (text_mode : bool) : SerialReader :=
  {| port := port; baud := baud; text_mode := text_mode;
     _stop := false; ser := None; pc := NotStarted |}.

(** [if self.ser and self.ser.is_open: self.ser.close()], inside a
    try block that swallows what [close] raises. *)
Definition close_if_open (self : SerialReader) : SerialReader :=
  match ser self with
  | Some s => if is_open s then set_ser self (Some {| is_open := false |}) else self
  | None => self
  end.

(** [stop]: the queue is passed along only to show that it is left alone. *)
Definition stop (self : SerialReader) (out_q : list msg) : SerialReader * list msg :=
  (close_if_open (set__stop self true), out_q).

(** [start], inherited from [threading.Thread]: the thread becomes alive
    and will execute [run].  (A second [start] raises; the script starts
    each reader once.) *)
Definition start (self : SerialReader) : SerialReader :=
  match pc self with
  | NotStarted => set_pc self Opening
  | _ => self
  end.

(** [run], lines 44-49.  The [except] clause names [serial.SerialException]
    only. *)
Definition run_open (o : open_outcome) (self : SerialReader) (out_q : list msg)
  : SerialReader * list msg :=
  match o with
  | OpenOk =>
      (set_pc (set_ser self (Some {| is_open := true |})) Looping,
       put ("__STATUS__",
            "Connected: " ++ port self ++ " @ " ++ Py.str (baud self) ++ " ("
            ++ (if text_mode self then "text" else "raw 8-bit") ++ ")") out_q)
  | OpenSerialException e =>
      (set_pc self Finished, put ("__ERROR__", "Open failed: " ++ e) out_q)
  | OpenRaises =>
      (* no handler in [run]: the exception ends the thread *)
      (set_pc self Finished, out_q)
  end.

(** The loop body, lines 52-72: the new queue and whether the loop is
    left by [break]. *)
Definition run_body (r : read_outcome) (self : SerialReader) (out_q : list msg)
  : bool * list msg :=
  match r with
  | ReadReturns data =>
      if text_mode self then
        match data with
        | [] => (false, out_q)
        | _ =>
            let s := Py.strip (Py.decode_ascii_ignore data) in
            if String.eqb s "" then (false, out_q)
            else (false, put ("value", s) out_q)
        end
      else
        match data with
        | [] => (false, out_q)
        | b0 :: _ => (false, put ("value", Py.str b0) out_q)
        end
  | ReadSerialException e => (true, put ("__ERROR__", "Read error: " ++ e) out_q)
  | ReadException => (false, out_q)
  end.

(** After the loop, lines 74-79. *)
Definition run_exit (self : SerialReader) (out_q : list msg) : SerialReader * list msg :=
  (set_pc (close_if_open self) Finished, put ("__STATUS__", "Disconnected") out_q).

(** One pass through line 51 and, if the stop event is not set, the body. *)
Definition run_iter (r : read_outcome) (self : SerialReader) (out_q : list msg)
  : SerialReader * list msg :=
  if _stop self then run_exit self out_q
  else
    let '(brk, q) := run_body r self out_q in
    if brk then run_exit self q else (self, q).

(** A step of the thread; an event that does not fit the program point
    changes nothing. *)
Definition step (ev : thread_event) (self : SerialReader) (out_q : list msg)
  : SerialReader * list msg :=
  match pc self, ev with
  | Opening, TOpen o => run_open o self out_q
  | Looping, TTick r => run_iter r self out_q
  | _, _ => (self, out_q)
  end.

(** The thread is alive from [start] until [run] returns. *)
Definition is_alive (self : SerialReader) : bool :=
  match pc self with
  | Opening | Looping => true
  | NotStarted | Finished => false
  end.

End SerialReader.

(** An execution of one reader: calls of [stop] from the controller's
    thread interleaved with the steps of the reader's own thread. *)
Inductive reader_event :=
  | CallStop
  | Step (ev : thread_event).

Definition reader_do (ev : reader_event) (st : SerialReader * list msg)
  : SerialReader * list msg :=
  match ev with
  | CallStop => SerialReader.stop (fst st) (snd st)
  | Step e => SerialReader.step e (fst st) (snd st)
  end.

Definition reader_exec (evs : list reader_event) (st : SerialReader * list msg)
  : SerialReader * list msg :=
  fold_left (fun s ev => reader_do ev s) evs st.

(** [run] from [start] for a device that opens as [o] and then answers the
    reads as [reads], with no call of [stop]. *)
Definition run (o : open_outcome) (reads : list read_outcome)
    (self : SerialReader) (out_q : list msg) : SerialReader * list msg :=
  reader_exec (Step (TOpen o) :: map (fun r => Step (TTick r)) reads)
              (SerialReader.start self, out_q).

(** ** GridApp: the controller *)

(** A [tk.Label] of the grid: the two options the script configures. *)
Record Label := { text : string; bg : string }.

Record GridApp := {
  queue : list msg;
  labels : list (list Label);    (* labels[r][c] *)
  index : Z;                     (* the write cursor *)
  reader : option nat;           (* the current SerialReader, by thread number *)
  last_value : string;
  status_var : string;
  port_var : string;
  baud_var : string
}.

Definition set_queue (self : GridApp) (q : list msg) : GridApp :=
  {| queue := q; labels := labels self; index := index self; reader := reader self;
     last_value := last_value self; status_var := status_var self;
     port_var := port_var self; baud_var := baud_var self |}.
Definition set_labels (self : GridApp) (l : list (list Label)) : GridApp :=
  {| queue := queue self; labels := l; index := index self; reader := reader self;
     last_value := last_value self; status_var := status_var self;
     port_var := port_var self; baud_var := baud_var self |}.
Definition set_index (self : GridApp) (i : Z) : GridApp :=
  {| queue := queue self; labels := labels self; index := i; reader := reader self;
     last_value := last_value self; status_var := status_var self;
     port_var := port_var self; baud_var := baud_var self |}.
Definition set_reader (self : GridApp) (r : option nat) : GridApp :=
  {| queue := queue self; labels := labels self; index := index self; reader := r;
     last_value := last_value self; status_var := status_var self;
     port_var := port_var self; baud_var := baud_var self |}.
Definition set_last_value (self : GridApp) (s : string) : GridApp :=
  {| queue := queue self; labels := labels self; index := index self; reader := reader self;
     last_value := s; status_var := status_var self;
     port_var := port_var self; baud_var := baud_var self |}.
Definition set_status_var (self : GridApp) (s : string) : GridApp :=
  {| queue := queue self; labels := labels self; index := index self; reader := reader self;
     last_value := last_value self; status_var := s;
     port_var := port_var self; baud_var := baud_var self |}.
Definition set_port_var (self : GridApp) (s : string) : GridApp :=
  {| queue := queue self; labels := labels self; index := index self; reader := reader self;
     last_value := last_value self; status_var := status_var self;
     port_var := s; baud_var := baud_var self |}.
Definition set_baud_var (self : GridApp) (s : string) : GridApp :=
  {| queue := queue self; labels := labels self; index := index self; reader := reader self;
     last_value := last_value self; status_var := status_var self;
     port_var := port_var self; baud_var := s |}.

(** [refresh_ports], given what [list_ports()] returns. *)
Definition refresh_ports (ports : list string) (self : GridApp) : GridApp :=
  let cur := port_var self in
  if negb (existsb (String.eqb cur) ports) then
    match ports with
    | p0 :: _ => set_port_var self p0
    | [] => self
    end
  else self.

(** [__init__]: the state after the constructor, given the ports present. *)
Definition GridApp_init (ports : list string) : GridApp :=
  refresh_ports ports
    {| queue := [];
       labels := replicate (Z.to_nat ROWS)
                   (replicate (Z.to_nat COLS) {| text := ""; bg := "white" |});
       index := 0;
       reader := None;
       last_value := "—";          (* an em dash, as its UTF-8 bytes *)
       status_var := "Idle";
       port_var := DEFAULT_PORT;
       baud_var := Py.str DEFAULT_BAUD |}.

(** The colour rule of [set_cell], lines 194-199. *)
Definition color_rule (val : Z) : string :=
  if val <? 20 then "red"
  else if val <? 60 then "yellow"
  else "green".

(** [set_cell]: [None] is the [IndexError] of [self.labels[r][c]]. *)
Definition set_cell (idx : Z) (text_value : string) (self : GridApp) : option GridApp :=
  let r := idx / COLS in
  let c := idx mod COLS in
  let val := match Py.int text_value with Some v => v | None => 0 end in
  let color := color_rule val in
  i ← Py.index (length (labels self)) r;
  row ← labels self !! i;
  j ← Py.index (length row) c;
  Some (set_labels self
          (<[i := <[j := {| text := text_value; bg := color |}]> row]> (labels self))).

(** The body of the loop of [process_queue] for one message. *)
Definition on_message (m : msg) (self : GridApp) : option GridApp :=
  let '(kind, payload) := m in
  if String.eqb kind "__ERROR__" then
    Some (set_status_var self ("Error: " ++ payload))
  else if String.eqb kind "__STATUS__" then
    Some (set_status_var self payload)
  else if String.eqb kind "value" then
    self' ← set_cell (index self) payload (set_last_value self payload);
    Some (set_index self' ((index self' + 1) mod TOTAL_CELLS))
  else Some self.

(** The loop of [process_queue] on the messages [pending] in the queue:
    [get_nowait] removes the first, the body handles it, and the loop ends
    on [queue.Empty]. *)
Fixpoint process_loop (pending : list msg) (self : GridApp) : option GridApp :=
  match pending with
  | [] => Some self
  | m :: rest =>
      self' ← on_message m (set_queue self rest);
      process_loop rest self'
  end.

Definition process_queue (self : GridApp) : option GridApp :=
  process_loop (queue self) self.

(** The label that displays cell [idx], row-major. *)
Definition cell (idx : Z) (self : GridApp) : option Label :=
  row ← labels self !! Z.to_nat (idx / COLS);
  row !! Z.to_nat (idx mod COLS).

(** ** The controller together with the threads it has started *)

Record World := {
  app : GridApp;
  threads : list SerialReader     (* every reader created, by thread number *)
}.

Definition on_app (f : GridApp -> GridApp) (w : World) : World :=
  {| app := f (app w); threads := threads w |}.

(** Calls a method of reader [i] that works on the reader and the queue. *)
Definition on_thread (i : nat)
    (f : SerialReader -> list msg -> SerialReader * list msg) (w : World) : World :=
  match threads w !! i with
  | Some t =>
      let '(t', q) := f t (queue (app w)) in
      {| app := set_queue (app w) q; threads := <[i := t']> (threads w) |}
  | None => w
  end.

(** [disconnect] *)
Definition disconnect (w : World) : World :=
  match reader (app w) with
  | Some i =>
      let w := on_thread i SerialReader.stop w in
      let w := on_app (fun a => set_reader a None) w in
      on_app (fun a => set_status_var a "Disconnected") w
  | None => w
  end.

(** [connect] *)
Definition connect (w : World) : World :=
  let w := disconnect w in
  let port := Py.strip (port_var (app w)) in
  match Py.int (Py.strip (baud_var (app w))) with
  | None => on_app (fun a => set_status_var a "Invalid baud rate") w
  | Some baud =>
      if String.eqb port "" then
        on_app (fun a => set_status_var a "Select/enter a port") w
      else
        let a := set_status_var (app w)
                   ("Connecting to " ++ port ++ " @ " ++ Py.str baud ++ " ...") in
        let new := SerialReader.init port baud TEXT_MODE in
        {| app := set_reader a (Some (length (threads w)));
           threads := (threads w ++ [SerialReader.start new])%list |}
  end.

(** What can happen next: the user edits a field or presses a button, the
    timer fires [process_queue], or one of the threads takes a step.  A
    callback of the controller runs to its end before any thread takes
    its next step. *)
Inductive action :=
  | SetPort (s : string)
  | SetBaud (s : string)
  | RefreshPorts (ports : list string)
  | Connect
  | Disconnect
  | Poll
  | Thread (i : nat) (ev : thread_event).

(** [None]: the callback ended with an uncaught exception. *)
Definition do_action (a : action) (w : World) : option World :=
  match a with
  | SetPort s => Some (on_app (fun a => set_port_var a s) w)
  | SetBaud s => Some (on_app (fun a => set_baud_var a s) w)
  | RefreshPorts ports => Some (on_app (refresh_ports ports) w)
  | Connect => Some (connect w)
  | Disconnect => Some (disconnect w)
  | Poll => a' ← process_queue (app w); Some {| app := a'; threads := threads w |}
  | Thread i ev => Some (on_thread i (SerialReader.step ev) w)
  end.

Fixpoint do_actions (acts : list action) (w : World) : option World :=
  match acts with
  | [] => Some w
  | a :: rest => w' ← do_action a w; do_actions rest w'
  end.

Definition World_init (ports : list string) : World :=
  {| app := GridApp_init ports; threads := [] |}.

Inductive reachable : World -> Prop :=
  | reachable_init ports : reachable (World_init ports)
  | reachable_step a w w' : reachable w -> do_action a w = Some w' -> reachable w'.

(** ** Predicates and observations used in the statements *)

(** The grid has the shape [__init__] gives it and the cursor is on it. *)
Definition grid_ok (self : GridApp) : Prop :=
  length (labels self) = Z.to_nat ROWS /\
  Forall (fun row => length row = Z.to_nat COLS) (labels self).

Definition cursor_ok (self : GridApp) : Prop := 0 <= index self < TOTAL_CELLS.

(** The message is a reading. *)
Definition is_value (m : msg) : bool := String.eqb (fst m) "value".

Definition count_values (msgs : list msg) : nat := length (List.filter is_value msgs).

(** The cells written while [process_loop] consumes [pending]: the value of
    the cursor at each call of [set_cell], in order. *)
Fixpoint cursor_visits (pending : list msg) (self : GridApp) : list Z :=
  match pending with
  | [] => []
  | m :: rest =>
      match on_message m (set_queue self rest) with
      | Some self' =>
          ((if is_value m then [index self] else []) ++ cursor_visits rest self')%list
      | None => []
      end
  end.

(** The readings 5, 25, 65 in raw mode, then a read error. *)
Definition three_readings_then_error : list read_outcome :=
  [ReadReturns [5]; ReadReturns [25]; ReadReturns [65];
   ReadSerialException "device disconnected"].

(** Every reader other than the current one has its stop event set. *)
Definition others_stopped (w : World) : Prop :=
  forall i t, threads w !! i = Some t -> _stop t = false -> reader (app w) = Some i.

Definition all_stopped (w : World) : Prop :=
  forall i t, threads w !! i = Some t -> _stop t = true.

(** The state after Connect with the default fields once the thread has
    opened its port. *)
Definition connected_world : World :=
  on_thread 0 (SerialReader.step (TOpen OpenOk)) (connect (World_init [])).

(** The status texts that a drain of [msgs] sets, in order. *)
Definition status_texts (msgs : list msg) : list string :=
  flat_map (fun m : msg =>
              if String.eqb (fst m) "__ERROR__" then ["Error: " ++ snd m]
              else if String.eqb (fst m) "__STATUS__" then [snd m]
              else []) msgs.

(** The texts of the readings among [msgs], in order. *)
Definition value_texts (msgs : list msg) : list string :=
  map snd (List.filter is_value msgs).

(** The read ended with [serial.SerialException]. *)
Definition is_serial_exception (r : read_outcome) : bool :=
  match r with
  | ReadSerialException _ => true
  | _ => false
  end.

(** The value of one byte. *)
Definition is_byte (b : Z) : bool := (0 <=? b) && (b <=? 255).

(** The inputs of Connect pass its two checks. *)
Definition inputs_valid (w : World) : bool :=
  match Py.int (Py.strip (baud_var (app w))) with
  | Some _ => negb (String.eqb (Py.strip (port_var (app w))) "")
  | None => false
  end.

(** The current reader exists and has not been told to stop, and every
    reader created has been started. *)
Definition reader_ok (w : World) : Prop :=
  (forall i, reader (app w) = Some i ->
             exists t, threads w !! i = Some t /\ _stop t = false) /\
  (forall i t, threads w !! i = Some t -> pc t <> NotStarted).

(** The message the raw-mode loop puts for the byte [b]. *)
Definition reading_msg (b : Z) : msg := ("value", Py.str b).

(** A character of the ASCII range. *)
Definition is_ascii_char (c : ascii) : bool := (nat_of_ascii c <? 128)%nat.

(** Every character of [s] satisfies [p]. *)
Fixpoint string_forallb (p : ascii -> bool) (s : string) : bool :=
  match s with
  | EmptyString => true
  | String c r => p c && string_forallb p r
  end.

(** * Properties *)

(** ** The Python builtins on examples *)

Example int_57 : Py.int "57" = Some 57. Proof. reflexivity. Qed.
Example int_ws : Py.int "  -1_000 " = Some (-1000). Proof. reflexivity. Qed.
Example int_abc : Py.int "abc" = None. Proof. reflexivity. Qed.
Example int_us : Py.int "5__0" = None /\ Py.int "_5" = None /\ Py.int "5_" = None /\ Py.int "" = None /\ Py.int "+" = None.
Proof. repeat split; reflexivity. Qed.
Example str_255 : Py.str 255 = "255" /\ Py.str 0 = "0" /\ Py.str (-5) = "-5". Proof. repeat split; reflexivity. Qed.
Example strip_ex : Py.strip "  COM8 " = "COM8" /\ Py.strip "   " = "" /\ Py.strip " a b " = "a b".
Proof. repeat split; reflexivity. Qed.

(** Decimal digits and white space beyond ASCII: full-width digits parse,
    a no-break space (bytes 194 160) is skipped by [int] and removed by
    [strip]. *)
Example int_fullwidth :
  Py.int "９６００" = Some 9600 /\ Py.int "６５" = Some 65 /\
  Py.int (String (Py.chr 194) (String (Py.chr 160) "7")) = Some 7 /\
  Py.strip (String (Py.chr 194) (String (Py.chr 160) "")) = "".
Proof. repeat split; vm_compute; reflexivity. Qed.

(** The cap on the number of digits: 4300 digits parse, 4301 do not. *)
Example int_digit_cap :
  Py.int (string_of_list_ascii (List.repeat "0"%char 4300)) = Some 0 /\
  Py.int (string_of_list_ascii (List.repeat "1"%char 4301)) = None.
Proof. split; vm_compute; reflexivity. Qed.

(** ** The grid *)

Lemma py_index_in_range (len : nat) (i : Z) :
  0 <= i < Z.of_nat len -> Py.index len i = Some (Z.to_nat i).
Proof.
  intros H. unfold Py.index.
  destruct (0 <=? i) eqn:E1; [|lia].
  destruct (i <? Z.of_nat len) eqn:E2; [|lia].
  reflexivity.
Qed.

Lemma cell_coordinates (idx : Z) :
  0 <= idx < TOTAL_CELLS -> 0 <= idx / COLS < ROWS /\ 0 <= idx mod COLS < COLS.
Proof.
  unfold TOTAL_CELLS, ROWS, COLS. intros H. repeat split.
  - apply Z.div_pos; lia.
  - apply Z.div_lt_upper_bound; lia.
  - apply Z.mod_pos_bound; lia.
  - apply Z.mod_pos_bound; lia.
Qed.

Lemma grid_ok_row (self : GridApp) (i : nat) :
  grid_ok self -> (i < Z.to_nat ROWS)%nat ->
  exists row, labels self !! i = Some row /\ length row = Z.to_nat COLS.
Proof.
  intros [Hlen Hrows] Hi.
  destruct (lookup_lt_is_Some_2 (labels self) i) as [row Hrow]; [lia|].
  exists row. split; [exact Hrow|].
  rewrite Forall_forall in Hrows. apply Hrows.
  eapply list_elem_of_lookup_2. exact Hrow.
Qed.

(** What [set_cell] does on the grid: it never raises for a cursor on the
    grid, the addressed label gets the text as received and the colour of
    the parsed value (0 for a text that does not parse), and nothing else
    of the controller changes. *)
Lemma set_cell_spec (idx : Z) (text_value : string) (self : GridApp) :
  grid_ok self -> 0 <= idx < TOTAL_CELLS ->
  exists self',
    set_cell idx text_value self = Some self' /\
    cell idx self' =
      Some {| text := text_value;
              bg := color_rule (match Py.int text_value with Some v => v | None => 0 end) |} /\
    grid_ok self' /\
    index self' = index self /\ queue self' = queue self /\
    reader self' = reader self /\ status_var self' = status_var self /\
    last_value self' = last_value self /\
    port_var self' = port_var self /\ baud_var self' = baud_var self.
Proof.
  intros Hg Hidx.
  destruct (cell_coordinates idx Hidx) as [Hr Hc].
  destruct (grid_ok_row self (Z.to_nat (idx / COLS)) Hg) as [row [Hrow Hlen]]; [lia|].
  pose proof Hg as [Hlen0 Hrows].
  unfold set_cell.
  rewrite (py_index_in_range (length (labels self)) (idx / COLS)) by lia.
  cbn [mbind option_bind]. rewrite Hrow. cbn [mbind option_bind].
  rewrite (py_index_in_range (length row) (idx mod COLS)) by lia.
  cbn [mbind option_bind].
  eexists. split; [reflexivity|].
  split.
  { unfold cell. cbn [labels set_labels].
    rewrite list_lookup_insert_eq by lia. cbn [mbind option_bind].
    rewrite list_lookup_insert_eq by lia. reflexivity. }
  split.
  { split; cbn [labels set_labels].
    - rewrite length_insert. exact Hlen0.
    - apply Forall_insert; [exact Hrows|]. rewrite length_insert. exact Hlen. }
  repeat split.
Qed.

Lemma grid_ok_init (ports : list string) : grid_ok (GridApp_init ports).
Proof.
  unfold GridApp_init, refresh_ports.
  destruct (negb _); [destruct ports|]; (split; [reflexivity | repeat constructor]).
Qed.

Lemma color_rule_cases (v : Z) :
  (v < 20 -> color_rule v = "red") /\
  (20 <= v < 60 -> color_rule v = "yellow") /\
  (60 <= v -> color_rule v = "green").
Proof.
  unfold color_rule. repeat split; intros H.
  - destruct (v <? 20) eqn:E; [reflexivity | lia].
  - destruct (v <? 20) eqn:E; [lia|]. destruct (v <? 60) eqn:E'; [reflexivity | lia].
  - destruct (v <? 20) eqn:E; [lia|]. destruct (v <? 60) eqn:E'; [lia | reflexivity].
Qed.

(** C1: when the text of a reading parses as the integer [v], [set_cell]
    gives the addressed label the background red if [v < 20], yellow if
    [20 <= v < 60] and green if [v >= 60]; the texts 19, 20, 59 and 60 get
    red, yellow, yellow and green. *)
Theorem set_cell_color_of_parsed_value
    (idx : Z) (text_value : string) (v : Z) (self : GridApp) :
  grid_ok self -> 0 <= idx < TOTAL_CELLS ->
  Py.int text_value = Some v ->
  exists self' lbl,
    set_cell idx text_value self = Some self' /\
    cell idx self' = Some lbl /\
    (v < 20 -> bg lbl = "red") /\
    (20 <= v < 60 -> bg lbl = "yellow") /\
    (60 <= v -> bg lbl = "green") /\
    (text_value = "19" -> bg lbl = "red") /\
    (text_value = "20" -> bg lbl = "yellow") /\
    (text_value = "59" -> bg lbl = "yellow") /\
    (text_value = "60" -> bg lbl = "green").
Proof.
  intros Hg Hidx Hv.
  destruct (set_cell_spec idx text_value self Hg Hidx) as (self' & Hset & Hcell & _).
  rewrite Hv in Hcell.
  exists self', {| text := text_value; bg := color_rule v |}.
  destruct (color_rule_cases v) as (Hred & Hyellow & Hgreen).
  split; [exact Hset|]. split; [exact Hcell|]. cbn [bg].
  repeat split; try assumption;
    intros ->; cbv in Hv; injection Hv as <-; reflexivity.
Qed.

Lemma set_cell_color_of_parsed_value_witness :
  exists self' lbl,
    set_cell 199 "60" (GridApp_init []) = Some self' /\
    cell 199 self' = Some lbl /\
    (60 < 20 -> bg lbl = "red") /\
    (20 <= 60 < 60 -> bg lbl = "yellow") /\
    (60 <= 60 -> bg lbl = "green") /\
    ("60" = "19" -> bg lbl = "red") /\
    ("60" = "20" -> bg lbl = "yellow") /\
    ("60" = "59" -> bg lbl = "yellow") /\
    ("60" = "60" -> bg lbl = "green").
Proof.
  apply (set_cell_color_of_parsed_value 199 "60" 60 (GridApp_init [])).
  - apply grid_ok_init.
  - unfold TOTAL_CELLS, ROWS, COLS. lia.
  - reflexivity.
Defined.

(** C3: when the text of a reading does not parse as an integer,
    [set_cell] colours the label as for the value 0, that is red, and the
    label shows the text as it was received. *)
Theorem set_cell_unparsable_text (idx : Z) (text_value : string) (self : GridApp) :
  grid_ok self -> 0 <= idx < TOTAL_CELLS ->
  Py.int text_value = None ->
  exists self',
    set_cell idx text_value self = Some self' /\
    cell idx self' = Some {| text := text_value; bg := color_rule 0 |} /\
    color_rule 0 = "red".
Proof.
  intros Hg Hidx Hv.
  destruct (set_cell_spec idx text_value self Hg Hidx) as (self' & Hset & Hcell & _).
  rewrite Hv in Hcell.
  exists self'. repeat split; assumption.
Qed.

Lemma set_cell_unparsable_text_witness :
  exists self',
    set_cell 0 "abc" (GridApp_init []) = Some self' /\
    cell 0 self' = Some {| text := "abc"; bg := color_rule 0 |} /\
    color_rule 0 = "red".
Proof.
  apply (set_cell_unparsable_text 0 "abc" (GridApp_init [])).
  - apply grid_ok_init.
  - unfold TOTAL_CELLS, ROWS, COLS. lia.
  - reflexivity.
Defined.

(** At the edges of what [int] accepts: full-width 65 parses and is
    coloured green; a text of 4301 digits does not parse and is coloured
    red. *)
Example set_cell_unicode_and_cap :
  (bg <$> (set_cell 0 "６５" (GridApp_init []) ≫= cell 0)) = Some "green" /\
  (bg <$> (set_cell 0 (string_of_list_ascii (List.repeat "9"%char 4301)) (GridApp_init [])
           ≫= cell 0)) = Some "red".
Proof. split; vm_compute; reflexivity. Qed.

(** ** The write cursor *)

Lemma on_message_value (payload : string) (self : GridApp) :
  grid_ok self -> cursor_ok self ->
  exists self',
    on_message ("value", payload) self = Some self' /\
    index self' = (index self + 1) mod TOTAL_CELLS /\
    grid_ok self' /\ cursor_ok self' /\
    cell (index self) self' =
      Some {| text := payload;
              bg := color_rule (match Py.int payload with Some v => v | None => 0 end) |} /\
    last_value self' = payload /\
    status_var self' = status_var self /\ reader self' = reader self /\
    queue self' = queue self.
Proof.
  intros Hg Hc.
  destruct (set_cell_spec (index self) payload (set_last_value self payload) Hg Hc)
    as (s1 & Hset & Hcell & Hg1 & Hi1 & Hq1 & Hr1 & Hs1 & Hl1 & _).
  unfold on_message.
  change (String.eqb "value" "__ERROR__") with false.
  change (String.eqb "value" "__STATUS__") with false.
  change (String.eqb "value" "value") with true.
  cbv iota. rewrite Hset. cbn [mbind option_bind].
  eexists. split; [reflexivity|].
  cbn [index set_index]. rewrite Hi1. cbn [index set_last_value].
  split; [reflexivity|].
  split; [exact Hg1|].
  split; [unfold cursor_ok; cbn [index set_index]; apply Z.mod_pos_bound; reflexivity|].
  split; [exact Hcell|].
  cbn [last_value status_var reader queue set_index].
  rewrite Hl1, Hs1, Hr1, Hq1. repeat split.
Qed.

Lemma on_message_not_value (m : msg) (self : GridApp) :
  is_value m = false ->
  exists self',
    on_message m self = Some self' /\
    labels self' = labels self /\ index self' = index self /\
    last_value self' = last_value self /\ reader self' = reader self /\
    queue self' = queue self.
Proof.
  destruct m as [kind payload]. unfold is_value, on_message. cbn [fst]. intros Hk.
  rewrite Hk.
  destruct (String.eqb kind "__ERROR__"); [|destruct (String.eqb kind "__STATUS__")];
    eexists; (split; [reflexivity|]); repeat split.
Qed.

Lemma round_robin_shift (i : Z) (n : nat) :
  map (fun k : nat => ((i + 1) mod TOTAL_CELLS + Z.of_nat k) mod TOTAL_CELLS) (seq 0 n) =
  map (fun k : nat => (i + Z.of_nat k) mod TOTAL_CELLS) (seq 1 n).
Proof.
  rewrite <- (seq_shift n 0), map_map.
  apply map_ext. intros k.
  rewrite Z.add_mod_idemp_l by (unfold TOTAL_CELLS, ROWS, COLS; lia).
  f_equal. lia.
Qed.

(** Consuming any messages from a state with the cursor on the grid never
    raises; the cells written are the successors of the starting cursor
    modulo 200, one per reading. *)
Lemma process_loop_round_robin (msgs : list msg) (self : GridApp) :
  grid_ok self -> cursor_ok self ->
  exists self',
    process_loop msgs self = Some self' /\
    cursor_visits msgs self =
      map (fun k : nat => (index self + Z.of_nat k) mod TOTAL_CELLS)
          (seq 0 (count_values msgs)) /\
    index self' = (index self + Z.of_nat (count_values msgs)) mod TOTAL_CELLS /\
    grid_ok self' /\ cursor_ok self' /\
    reader self' = reader self.
Proof.
  revert self. induction msgs as [|m rest IH]; intros self Hg Hc.
  - exists self. cbn. rewrite Z.add_0_r, Z.mod_small by exact Hc.
    split; [reflexivity|]. split; [reflexivity|]. split; [reflexivity|].
    split; [exact Hg|]. split; [exact Hc|]. reflexivity.
  - cbn [process_loop cursor_visits]. unfold count_values. cbn [List.filter].
    destruct (is_value m) eqn:Hm.
    + destruct m as [kind payload]. unfold is_value in Hm. cbn [fst] in Hm.
      apply String.eqb_eq in Hm. subst kind.
      destruct (on_message_value payload (set_queue self rest) Hg Hc)
        as (s1 & Hs1 & Hi1 & Hg1 & Hc1 & _ & _ & _ & Hr1 & _).
      rewrite Hs1. cbn [mbind option_bind].
      destruct (IH s1 Hg1 Hc1) as (s2 & Hs2 & Hv2 & Hi2 & Hg2 & Hc2 & Hr2).
      exists s2. rewrite Hs2, Hv2, Hi2, Hi1. cbn [index set_queue length seq map].
      fold (count_values rest).
      split; [reflexivity|]. split.
      { cbn [Datatypes.app Z.of_nat]. rewrite Z.add_0_r, (Z.mod_small (index self)) by exact Hc.
        f_equal. apply round_robin_shift. }
      split.
      { rewrite Z.add_mod_idemp_l by (unfold TOTAL_CELLS, ROWS, COLS; lia).
        f_equal. lia. }
      split; [exact Hg2|]. split; [exact Hc2|].
      rewrite Hr2, Hr1. reflexivity.
    + destruct (on_message_not_value m (set_queue self rest) Hm)
        as (s1 & Hs1 & Hl1 & Hi1 & _ & Hr1 & _).
      rewrite Hs1. cbn [mbind option_bind].
      assert (Hg1 : grid_ok s1) by (unfold grid_ok; rewrite Hl1; exact Hg).
      assert (Hc1 : cursor_ok s1) by (unfold cursor_ok; rewrite Hi1; exact Hc).
      destruct (IH s1 Hg1 Hc1) as (s2 & Hs2 & Hv2 & Hi2 & Hg2 & Hc2 & Hr2).
      exists s2. rewrite Hs2, Hv2, Hi2, Hi1. cbn [index set_queue Datatypes.app].
      fold (count_values rest).
      split; [reflexivity|]. split; [reflexivity|]. split; [reflexivity|].
      split; [exact Hg2|]. split; [exact Hc2|].
      rewrite Hr2, Hr1. reflexivity.
Qed.

(** C2, amended: consuming any sequence of messages from a state whose
    cursor is on the grid never raises; the cells written are the
    successors of the starting cursor modulo 200, one per reading and
    whatever the readings are (0, 1, ..., 199, 0, 1, ... from the initial
    cursor 0); the cursor ends at the start plus the number of readings
    modulo 200, and it is a single integer in [0, 199], both ends
    included. *)
Theorem cursor_round_robin (msgs : list msg) (self : GridApp) :
  grid_ok self -> 0 <= index self <= 199 ->
  exists self',
    process_loop msgs self = Some self' /\
    cursor_visits msgs self =
      map (fun k : nat => (index self + Z.of_nat k) mod 200) (seq 0 (count_values msgs)) /\
    index self' = (index self + Z.of_nat (count_values msgs)) mod 200 /\
    0 <= index self' <= 199.
Proof.
  intros Hg Hc.
  assert (Hc' : cursor_ok self) by (unfold cursor_ok, TOTAL_CELLS, ROWS, COLS; lia).
  destruct (process_loop_round_robin msgs self Hg Hc')
    as (self' & Hrun & Hvis & Hidx & _ & Hc2 & _).
  exists self'. unfold cursor_ok, TOTAL_CELLS, ROWS, COLS in *. cbn in *.
  repeat split; try assumption; lia.
Qed.

Lemma cursor_round_robin_witness :
  exists self',
    process_loop [("value", "5"); ("__STATUS__", "x"); ("value", "abc")] (GridApp_init []) = Some self' /\
    cursor_visits [("value", "5"); ("__STATUS__", "x"); ("value", "abc")] (GridApp_init []) =
      map (fun k : nat => (index (GridApp_init []) + Z.of_nat k) mod 200)
          (seq 0 (count_values [("value", "5"); ("__STATUS__", "x"); ("value", "abc")])) /\
    index self' =
      (index (GridApp_init []) +
       Z.of_nat (count_values [("value", "5"); ("__STATUS__", "x"); ("value", "abc")])) mod 200 /\
    0 <= index self' <= 199.
Proof.
  apply (cursor_round_robin [("value", "5"); ("__STATUS__", "x"); ("value", "abc")] (GridApp_init [])).
  - apply grid_ok_init.
  - cbn. lia.
Defined.

(** C2 as stated fails at its last clause: after 199 readings the cursor
    is 199, which is on the grid and is not in the half-open range
    [0, 199). *)
Lemma cursor_reaches_199 :
  exists self',
    process_loop (replicate 199 ("value", "0")) (GridApp_init []) = Some self' /\
    index self' = 199 /\
    (index self' <? 199) = false.
Proof.
  eexists. split; [vm_compute; reflexivity|]. split; reflexivity.
Qed.

(** ** The reader thread *)

Lemma stop_keeps_queue (self : SerialReader) (out_q : list msg) :
  snd (SerialReader.stop self out_q) = out_q.
Proof. reflexivity. Qed.

Lemma close_if_open_closed (self : SerialReader) :
  SerialReader.close_if_open (SerialReader.close_if_open self) =
  SerialReader.close_if_open self.
Proof.
  unfold SerialReader.close_if_open.
  destruct self as [p b tm st [[[|]]|] c]; reflexivity.
Qed.

Lemma close_if_open_fields (self : SerialReader) :
  _stop (SerialReader.close_if_open self) = _stop self /\
  pc (SerialReader.close_if_open self) = pc self /\
  port (SerialReader.close_if_open self) = port self /\
  baud (SerialReader.close_if_open self) = baud self /\
  text_mode (SerialReader.close_if_open self) = text_mode self.
Proof.
  unfold SerialReader.close_if_open.
  destruct (ser self) as [[[|]]|]; repeat split.
Qed.

Lemma close_if_open_not_open (self : SerialReader) :
  ser (SerialReader.close_if_open self) =
  match ser self with Some _ => Some {| is_open := false |} | None => None end.
Proof.
  unfold SerialReader.close_if_open.
  destruct self as [p b tm st [[[|]]|] c]; reflexivity.
Qed.

Lemma step_keeps_stop (ev : thread_event) (self : SerialReader) (out_q : list msg) :
  _stop (fst (SerialReader.step ev self out_q)) = _stop self.
Proof.
  unfold SerialReader.step.
  destruct (pc self), ev as [o|r]; try reflexivity.
  - destruct o; reflexivity.
  - unfold SerialReader.run_iter, SerialReader.run_exit.
    destruct (close_if_open_fields self) as [Hc _].
    destruct (_stop self) eqn:Hs.
    + cbn. exact Hc.
    + destruct (SerialReader.run_body r self out_q) as [[|] q]; [|exact Hs].
      cbn. exact Hc.
Qed.

Lemma reader_do_stop_monotone (ev : reader_event) (st : SerialReader * list msg) :
  _stop (fst st) = true -> _stop (fst (reader_do ev st)) = true.
Proof.
  intros H. destruct ev as [|e]; cbn [reader_do].
  - unfold SerialReader.stop. cbn [fst].
    destruct (close_if_open_fields (set__stop (fst st) true)) as [Hc _].
    rewrite Hc. reflexivity.
  - rewrite step_keeps_stop. exact H.
Qed.

Lemma reader_exec_stop_monotone (evs : list reader_event) (st : SerialReader * list msg) :
  _stop (fst st) = true -> _stop (fst (reader_exec evs st)) = true.
Proof.
  revert st. induction evs as [|ev evs IH]; intros st H; [exact H|].
  cbn. apply IH. apply reader_do_stop_monotone. exact H.
Qed.

(** A thread that has returned emits nothing more and stays returned. *)
Lemma reader_exec_finished (evs : list reader_event) (st : SerialReader * list msg) :
  pc (fst st) = Finished ->
  pc (fst (reader_exec evs st)) = Finished /\ snd (reader_exec evs st) = snd st.
Proof.
  revert st. induction evs as [|ev evs IH]; intros [t q] H; [split; [exact H | reflexivity]|].
  cbn [reader_exec fold_left]. cbn [fst] in H.
  assert (Hd : pc (fst (reader_do ev (t, q))) = Finished /\ snd (reader_do ev (t, q)) = q).
  { destruct ev as [|e]; cbn [reader_do fst snd].
    - split; [|reflexivity]. unfold SerialReader.stop. cbn [fst].
      destruct (close_if_open_fields (set__stop t true)) as (_ & Hc & _).
      rewrite Hc. exact H.
    - unfold SerialReader.step. rewrite H. destruct e; split; try reflexivity; exact H. }
  destruct Hd as [Hpc Hq].
  destruct (IH (reader_do ev (t, q)) Hpc) as [IH1 IH2].
  fold (reader_exec evs (reader_do ev (t, q))).
  split; [exact IH1|]. rewrite IH2. exact Hq.
Qed.

(** When opening the port raises [serial.SerialException], the thread puts
    one error message on the queue and returns; whatever is scheduled
    afterwards it stays returned and the queue gets nothing more. *)
Lemma open_failure_only_error
    (self : SerialReader) (out_q : list msg) (e : string) (evs : list reader_event) :
  pc self = NotStarted ->
  pc (SerialReader.start self) = Opening /\
  pc (fst (reader_exec (Step (TOpen (OpenSerialException e)) :: evs)
                       (SerialReader.start self, out_q))) = Finished /\
  snd (reader_exec (Step (TOpen (OpenSerialException e)) :: evs)
                   (SerialReader.start self, out_q))
    = put ("__ERROR__", "Open failed: " ++ e) out_q.
Proof.
  intros Hpc.
  assert (Hs : pc (SerialReader.start self) = Opening).
  { unfold SerialReader.start. rewrite Hpc. reflexivity. }
  split; [exact Hs|].
  assert (E : reader_do (Step (TOpen (OpenSerialException e))) (SerialReader.start self, out_q)
              = (set_pc (SerialReader.start self) Finished,
                 put ("__ERROR__", "Open failed: " ++ e) out_q)).
  { cbn [reader_do fst snd]. unfold SerialReader.step. rewrite Hs. reflexivity. }
  unfold reader_exec. cbn [fold_left]. rewrite E.
  apply (reader_exec_finished evs). reflexivity.
Qed.

(** When opening the port raises anything else, the thread returns and
    the queue is never touched. *)
Lemma open_failure_unhandled
    (self : SerialReader) (out_q : list msg) (evs : list reader_event) :
  pc self = NotStarted ->
  pc (fst (reader_exec (Step (TOpen OpenRaises) :: evs)
                       (SerialReader.start self, out_q))) = Finished /\
  snd (reader_exec (Step (TOpen OpenRaises) :: evs) (SerialReader.start self, out_q)) = out_q.
Proof.
  intros Hpc.
  assert (Hs : pc (SerialReader.start self) = Opening).
  { unfold SerialReader.start. rewrite Hpc. reflexivity. }
  assert (E : reader_do (Step (TOpen OpenRaises)) (SerialReader.start self, out_q)
              = (set_pc (SerialReader.start self) Finished, out_q)).
  { cbn [reader_do fst snd]. unfold SerialReader.step. rewrite Hs. reflexivity. }
  unfold reader_exec. cbn [fold_left]. rewrite E.
  apply (reader_exec_finished evs). reflexivity.
Qed.

(** C8, the code where the open fails with an exception that [run] does
    not name: with the baud text -5, which Connect accepts, the reader is
    started, [serial.Serial] raises [ValueError], and the thread ends
    with nothing on the queue; the timer finds no message and the status
    stays "Connecting to COM8 @ -5 ...".  In general a failed open puts
    the error message, and nothing after it, when the exception is
    [serial.SerialException], and puts nothing at all otherwise; in both
    cases the thread returns without entering its read loop. *)
Theorem open_failure_not_always_reported :
  ((fun w => (status_var (app w), queue (app w), reader (app w),
              map (fun t => (baud t, pc t, ser t)) (threads w))) <$>
     do_actions [SetBaud "-5"; Connect; Thread 0 (TOpen OpenRaises); Poll] (World_init []))
    = Some ("Connecting to COM8 @ -5 ...", [], Some 0%nat, [(-5, Finished, None)]) /\
  (forall self out_q evs,
     pc self = NotStarted ->
     pc (fst (reader_exec (Step (TOpen OpenRaises) :: evs)
                          (SerialReader.start self, out_q))) = Finished /\
     snd (reader_exec (Step (TOpen OpenRaises) :: evs) (SerialReader.start self, out_q))
       = out_q) /\
  (forall self out_q e evs,
     pc self = NotStarted ->
     pc (fst (reader_exec (Step (TOpen (OpenSerialException e)) :: evs)
                          (SerialReader.start self, out_q))) = Finished /\
     snd (reader_exec (Step (TOpen (OpenSerialException e)) :: evs)
                      (SerialReader.start self, out_q))
       = put ("__ERROR__", "Open failed: " ++ e) out_q).
Proof.
  split; [vm_compute; reflexivity|].
  split.
  - intros self out_q evs H. exact (open_failure_unhandled self out_q evs H).
  - intros self out_q e evs H.
    destruct (open_failure_only_error self out_q e evs H) as (_ & Hp & Hq).
    split; assumption.
Qed.

(** C6, amended: [stop] can be called any number of times and before
    [start]: it sets the stop event, closes the port if one is open, and a
    second call changes nothing.  It never puts a message on the queue
    itself.  The event stays set, and a thread at the head of its read
    loop with the event set leaves the loop at its next test, puts the
    status message "Disconnected" and returns. *)
Theorem stop_idempotent_and_observed (self : SerialReader) (out_q : list msg) :
  snd (SerialReader.stop self out_q) = out_q /\
  SerialReader.stop (fst (SerialReader.stop self out_q)) out_q = SerialReader.stop self out_q /\
  _stop (fst (SerialReader.stop self out_q)) = true /\
  pc (fst (SerialReader.stop self out_q)) = pc self /\
  ser (fst (SerialReader.stop self out_q)) =
    match ser self with Some _ => Some {| is_open := false |} | None => None end /\
  (forall evs, _stop (fst (reader_exec evs (SerialReader.stop self out_q))) = true) /\
  (forall r q t, _stop t = true -> pc t = Looping ->
     pc (fst (SerialReader.step (TTick r) t q)) = Finished /\
     snd (SerialReader.step (TTick r) t q) = (q ++ [("__STATUS__", "Disconnected")])%list).
Proof.
  unfold SerialReader.stop. cbn [fst snd].
  destruct (close_if_open_fields (set__stop self true)) as (Hst & Hpc & _).
  split; [reflexivity|].
  split.
  { f_equal.
    assert (E : set__stop (SerialReader.close_if_open (set__stop self true)) true
                = SerialReader.close_if_open (set__stop self true)).
    { destruct self as [p b tm st [[[|]]|] c]; reflexivity. }
    rewrite E. apply close_if_open_closed. }
  split; [rewrite Hst; reflexivity|].
  split; [rewrite Hpc; reflexivity|].
  split; [rewrite close_if_open_not_open; reflexivity|].
  split.
  { intros evs. apply reader_exec_stop_monotone. cbn [fst]. rewrite Hst. reflexivity. }
  intros r q t Ht Hl.
  unfold SerialReader.step. rewrite Hl. unfold SerialReader.run_iter. rewrite Ht.
  split; reflexivity.
Qed.

(** C6 as stated fails where it has [stop] announce the disconnection at
    once for a reader that is not running: for a reader never started, and
    for one whose thread returned after a failed open, the call leaves the
    queue as it was, without a "Disconnected" message. *)
Lemma stop_not_running_puts_nothing :
  SerialReader.is_alive (SerialReader.init "COM8" 115200 false) = false /\
  snd (SerialReader.stop (SerialReader.init "COM8" 115200 false) []) = [] /\
  SerialReader.is_alive
    (fst (run (OpenSerialException "no such port") [] (SerialReader.init "COM8" 115200 false) []))
    = false /\
  snd (reader_exec [CallStop]
         (run (OpenSerialException "no such port") [] (SerialReader.init "COM8" 115200 false) []))
    = [("__ERROR__", "Open failed: no such port")].
Proof. repeat split. Qed.

(** The status text after a drain that ends with a status message is the
    payload of that message. *)
Lemma process_loop_last_status (msgs : list msg) (payload : string) (a a' : GridApp) :
  process_loop (msgs ++ [("__STATUS__", payload)])%list a = Some a' ->
  status_var a' = payload.
Proof.
  revert a. induction msgs as [|m rest IH]; intros a; cbn [Datatypes.app process_loop].
  - change (on_message ("__STATUS__", payload) (set_queue a []))
      with (Some (set_status_var (set_queue a []) payload)).
    cbn [mbind option_bind]. intros [= <-]. reflexivity.
  - destruct (on_message m (set_queue a (rest ++ [("__STATUS__", payload)])%list)) as [a1|];
      cbn [mbind option_bind]; [apply IH | discriminate].
Qed.

(** C5, the code at the scenario of the specification: the thread puts the
    three readings, the error message and then the status message
    "Disconnected", closes the port and returns.  When the controller has
    consumed the messages up to the error the three cells are filled and
    the status is the error text; the message that follows in the queue
    replaces it, so that the status is "Disconnected" once the queue is
    drained.  This is so for every read error: the loop body that puts
    the error is followed at once by the put of "Disconnected", and a
    drain that ends with that message leaves it as the status. *)
Theorem read_error_status_is_overwritten :
  (forall t q e, pc t = Looping -> _stop t = false ->
     snd (SerialReader.step (TTick (ReadSerialException e)) t q)
       = put ("__STATUS__", "Disconnected") (put ("__ERROR__", "Read error: " ++ e) q)) /\
  (forall msgs e a a',
     process_loop (put ("__STATUS__", "Disconnected") (put ("__ERROR__", e) msgs)) a = Some a' ->
     status_var a' = "Disconnected") /\
  snd (run OpenOk three_readings_then_error (SerialReader.init "COM8" 115200 false) [])
    = [("__STATUS__", "Connected: COM8 @ 115200 (raw 8-bit)");
       ("value", "5"); ("value", "25"); ("value", "65");
       ("__ERROR__", "Read error: device disconnected");
       ("__STATUS__", "Disconnected")] /\
  pc (fst (run OpenOk three_readings_then_error (SerialReader.init "COM8" 115200 false) []))
    = Finished /\
  ser (fst (run OpenOk three_readings_then_error (SerialReader.init "COM8" 115200 false) []))
    = Some {| is_open := false |} /\
  (status_var <$>
     process_loop
       [("__STATUS__", "Connected: COM8 @ 115200 (raw 8-bit)");
        ("value", "5"); ("value", "25"); ("value", "65");
        ("__ERROR__", "Read error: device disconnected")]
       (GridApp_init []))
    = Some "Error: Read error: device disconnected" /\
  exists a,
    process_loop
      (snd (run OpenOk three_readings_then_error (SerialReader.init "COM8" 115200 false) []))
      (GridApp_init []) = Some a /\
    cell 0 a = Some {| text := "5"; bg := "red" |} /\
    cell 1 a = Some {| text := "25"; bg := "yellow" |} /\
    cell 2 a = Some {| text := "65"; bg := "green" |} /\
    cell 3 a = Some {| text := ""; bg := "white" |} /\
    index a = 3 /\
    last_value a = "65" /\
    status_var a = "Disconnected".
Proof.
  split.
  { intros t q e Hl Hs. unfold SerialReader.step. rewrite Hl.
    unfold SerialReader.run_iter. rewrite Hs. reflexivity. }
  split.
  { intros msgs e a a'. unfold put. apply process_loop_last_status. }
  split; [reflexivity|]. split; [reflexivity|]. split; [reflexivity|].
  split; [vm_compute; reflexivity|].
  eexists. split; [vm_compute; reflexivity|].
  repeat split.
Qed.

(** ** The controller and its threads *)

Lemma set_queue_same (a : GridApp) : set_queue a (queue a) = a.
Proof. destruct a; reflexivity. Qed.

Lemma on_thread_stop (i : nat) (w : World) :
  on_thread i SerialReader.stop w =
  match threads w !! i with
  | Some t =>
      {| app := app w;
         threads := <[i := SerialReader.close_if_open (set__stop t true)]> (threads w) |}
  | None => w
  end.
Proof.
  unfold on_thread, SerialReader.stop.
  destruct (threads w !! i); [|reflexivity].
  rewrite set_queue_same. reflexivity.
Qed.

(** [disconnect] touches the reference, the status text and the stopped
    reader, and nothing else. *)
Lemma disconnect_app (w : World) :
  app (disconnect w) =
  match reader (app w) with
  | Some _ => set_status_var (set_reader (app w) None) "Disconnected"
  | None => app w
  end.
Proof.
  unfold disconnect. destruct (reader (app w)) as [i|]; [|reflexivity].
  rewrite on_thread_stop. destruct (threads w !! i); reflexivity.
Qed.

Lemma disconnect_threads (w : World) :
  threads (disconnect w) =
  match reader (app w) with
  | Some i =>
      match threads w !! i with
      | Some t => <[i := SerialReader.close_if_open (set__stop t true)]> (threads w)
      | None => threads w
      end
  | None => threads w
  end.
Proof.
  unfold disconnect. destruct (reader (app w)) as [i|]; [|reflexivity].
  rewrite on_thread_stop. destruct (threads w !! i); reflexivity.
Qed.

Lemma disconnect_reader (w : World) : reader (app (disconnect w)) = None.
Proof.
  rewrite disconnect_app. destruct (reader (app w)) eqn:E; [reflexivity | exact E].
Qed.

Lemma disconnect_fields (w : World) :
  port_var (app (disconnect w)) = port_var (app w) /\
  baud_var (app (disconnect w)) = baud_var (app w) /\
  queue (app (disconnect w)) = queue (app w) /\
  labels (app (disconnect w)) = labels (app w) /\
  index (app (disconnect w)) = index (app w) /\
  last_value (app (disconnect w)) = last_value (app w).
Proof.
  rewrite disconnect_app. destruct (reader (app w)); repeat split.
Qed.

Lemma map_insert_same {A B : Type} (f : A -> B) (l : list A) (i : nat) (x y : A) :
  l !! i = Some y -> f x = f y -> map f (<[i := x]> l) = map f l.
Proof.
  revert i. induction l as [|a l IH]; intros [|i] Hl Hf; try discriminate Hl.
  - cbn in *. injection Hl as ->. rewrite Hf. reflexivity.
  - cbn in *. f_equal. apply IH; assumption.
Qed.

Lemma disconnect_pcs (w : World) :
  map pc (threads (disconnect w)) = map pc (threads w).
Proof.
  rewrite disconnect_threads.
  destruct (reader (app w)) as [i|]; [|reflexivity].
  destruct (threads w !! i) as [t|] eqn:E; [|reflexivity].
  apply (map_insert_same pc _ _ _ t E).
  destruct (close_if_open_fields (set__stop t true)) as (_ & Hpc & _).
  rewrite Hpc. reflexivity.
Qed.

Lemma disconnect_twice (w : World) : disconnect (disconnect w) = disconnect w.
Proof.
  unfold disconnect at 1. rewrite disconnect_reader. reflexivity.
Qed.

(** C4, amended: [disconnect] never raises, a second call in a row
    changes nothing, and afterwards there is no reader.  When a reader
    existed the status text becomes "Disconnected"; when none existed the
    call changes nothing at all, so the status text stays what it was. *)
Theorem disconnect_idempotent (w : World) :
  do_action Disconnect w = Some (disconnect w) /\
  disconnect (disconnect w) = disconnect w /\
  reader (app (disconnect w)) = None /\
  match reader (app w) with
  | Some _ => status_var (app (disconnect w)) = "Disconnected"
  | None => disconnect w = w
  end.
Proof.
  split; [reflexivity|].
  split; [apply disconnect_twice|].
  split; [apply disconnect_reader|].
  destruct (reader (app w)) eqn:E.
  - rewrite disconnect_app, E. reflexivity.
  - unfold disconnect. rewrite E. reflexivity.
Qed.

(** C4 as stated fails for a call when no reader exists: the status text
    is then left as it is, whatever it shows.  After a Connect refused for
    its baud rate it still reads "Invalid baud rate" after one call and
    after two; and when the message of a successful open is consumed after
    the user has disconnected, a further call leaves "Connected: ..." on
    display. *)
Lemma disconnect_without_reader_keeps_status :
  ((fun w => reader (app w)) <$>
     do_actions [SetBaud "notanumber"; Connect] (World_init [])) = Some None /\
  ((fun w => status_var (app w)) <$>
     do_actions [SetBaud "notanumber"; Connect; Disconnect] (World_init []))
    = Some "Invalid baud rate" /\
  ((fun w => status_var (app w)) <$>
     do_actions [SetBaud "notanumber"; Connect; Disconnect; Disconnect] (World_init []))
    = Some "Invalid baud rate" /\
  ((fun w => reader (app w)) <$>
     do_actions [Connect; Thread 0 (TOpen OpenOk); Disconnect; Poll] (World_init []))
    = Some None /\
  ((fun w => status_var (app w)) <$>
     do_actions [Connect; Thread 0 (TOpen OpenOk); Disconnect; Poll; Disconnect] (World_init []))
    = Some "Connected: COM8 @ 115200 (raw 8-bit)".
Proof. repeat split; vm_compute; reflexivity. Qed.

Lemma connect_invalid_baud_state (w : World) :
  Py.int (Py.strip (baud_var (app w))) = None ->
  connect w = on_app (fun a => set_status_var a "Invalid baud rate") (disconnect w).
Proof.
  intros H. unfold connect.
  destruct (disconnect_fields w) as (_ & Hb & _). rewrite Hb, H. reflexivity.
Qed.

Lemma connect_empty_port_state (w : World) (b : Z) :
  Py.int (Py.strip (baud_var (app w))) = Some b ->
  Py.strip (port_var (app w)) = "" ->
  connect w = on_app (fun a => set_status_var a "Select/enter a port") (disconnect w).
Proof.
  intros Hb Hp. unfold connect.
  destruct (disconnect_fields w) as (Hp' & Hb' & _). rewrite Hb', Hb, Hp', Hp. reflexivity.
Qed.

Lemma connect_valid_state (w : World) (b : Z) :
  Py.int (Py.strip (baud_var (app w))) = Some b ->
  Py.strip (port_var (app w)) <> "" ->
  connect w =
    {| app := set_reader
                (set_status_var (app (disconnect w))
                   ("Connecting to " ++ Py.strip (port_var (app w)) ++ " @ " ++ Py.str b ++ " ..."))
                (Some (length (threads (disconnect w))));
       threads := (threads (disconnect w)
                   ++ [SerialReader.start (SerialReader.init (Py.strip (port_var (app w))) b TEXT_MODE)])%list |}.
Proof.
  intros Hb Hp. unfold connect.
  destruct (disconnect_fields w) as (Hp' & Hb' & _). rewrite Hb', Hb, Hp'.
  destruct (String.eqb (Py.strip (port_var (app w))) "") eqn:E; [|reflexivity].
  apply String.eqb_eq in E. contradiction.
Qed.

Lemma disconnect_length (w : World) : length (threads (disconnect w)) = length (threads w).
Proof. rewrite <- (length_map pc), disconnect_pcs. apply length_map. Qed.

(** C7: when the text of the baud field does not parse as an integer,
    Connect sets the status text to "Invalid baud rate", leaves no current
    reader, creates no reader and starts no thread: the threads are the
    same in number and each is where it was in its [run]. *)
Theorem connect_invalid_baud (w : World) :
  Py.int (Py.strip (baud_var (app w))) = None ->
  status_var (app (connect w)) = "Invalid baud rate" /\
  reader (app (connect w)) = None /\
  length (threads (connect w)) = length (threads w) /\
  map pc (threads (connect w)) = map pc (threads w) /\
  queue (app (connect w)) = queue (app w).
Proof.
  intros H. rewrite (connect_invalid_baud_state w H).
  unfold on_app. cbn [app threads status_var set_status_var reader queue].
  destruct (disconnect_fields w) as (_ & _ & Hq & _).
  split; [reflexivity|].
  split; [apply disconnect_reader|].
  split; [rewrite <- (length_map pc), disconnect_pcs; apply length_map|].
  split; [apply disconnect_pcs | exact Hq].
Qed.

Lemma connect_invalid_baud_witness :
  status_var (app (connect (on_app (fun a => set_baud_var a "notanumber")
                                   (connect (World_init []))))) = "Invalid baud rate" /\
  reader (app (connect (on_app (fun a => set_baud_var a "notanumber")
                               (connect (World_init []))))) = None /\
  length (threads (connect (on_app (fun a => set_baud_var a "notanumber")
                                   (connect (World_init [])))))
    = length (threads (on_app (fun a => set_baud_var a "notanumber") (connect (World_init [])))) /\
  map pc (threads (connect (on_app (fun a => set_baud_var a "notanumber")
                                   (connect (World_init [])))))
    = map pc (threads (on_app (fun a => set_baud_var a "notanumber") (connect (World_init [])))) /\
  queue (app (connect (on_app (fun a => set_baud_var a "notanumber")
                              (connect (World_init [])))))
    = queue (app (on_app (fun a => set_baud_var a "notanumber") (connect (World_init [])))).
Proof.
  apply (connect_invalid_baud
           (on_app (fun a => set_baud_var a "notanumber") (connect (World_init [])))).
  reflexivity.
Defined.

(** C10: Connect stops and clears the existing reader before it looks at
    its inputs.  When the baud text does not parse or the port is empty,
    the state it leaves is the one [disconnect] leaves with the refusal as
    status text: no reader remains, and the reader that was current has
    its stop event set and its port closed. *)
Theorem connect_refused_after_teardown (w : World) :
  Py.int (Py.strip (baud_var (app w))) = None \/ Py.strip (port_var (app w)) = "" ->
  reader (app (connect w)) = None /\
  threads (connect w) = threads (disconnect w) /\
  (connect w = on_app (fun a => set_status_var a "Invalid baud rate") (disconnect w) \/
   connect w = on_app (fun a => set_status_var a "Select/enter a port") (disconnect w)) /\
  (forall i t, reader (app w) = Some i -> threads w !! i = Some t ->
     exists t', threads (connect w) !! i = Some t' /\
                _stop t' = true /\
                ser t' = match ser t with Some _ => Some {| is_open := false |} | None => None end).
Proof.
  intros H.
  assert (E : connect w = on_app (fun a => set_status_var a "Invalid baud rate") (disconnect w) \/
              connect w = on_app (fun a => set_status_var a "Select/enter a port") (disconnect w)).
  { destruct (Py.int (Py.strip (baud_var (app w)))) as [b|] eqn:Hb.
    - destruct H as [H|H]; [discriminate H|].
      right. exact (connect_empty_port_state w b Hb H).
    - left. exact (connect_invalid_baud_state w Hb). }
  assert (Ht : threads (connect w) = threads (disconnect w)) by (destruct E as [-> | ->]; reflexivity).
  split; [destruct E as [-> | ->]; apply disconnect_reader|].
  split; [exact Ht|].
  split; [exact E|].
  intros i t Hr Hl. rewrite Ht, disconnect_threads, Hr, Hl.
  exists (SerialReader.close_if_open (set__stop t true)).
  split; [apply list_lookup_insert_eq; eapply lookup_lt_Some; exact Hl|].
  destruct (close_if_open_fields (set__stop t true)) as (Hs & _).
  split; [rewrite Hs; reflexivity|].
  rewrite close_if_open_not_open. reflexivity.
Qed.

Lemma connect_refused_after_teardown_witness :
  reader (app (connect (on_app (fun a => set_port_var a "   ") connected_world))) = None /\
  threads (connect (on_app (fun a => set_port_var a "   ") connected_world))
    = threads (disconnect (on_app (fun a => set_port_var a "   ") connected_world)) /\
  (connect (on_app (fun a => set_port_var a "   ") connected_world)
     = on_app (fun a => set_status_var a "Invalid baud rate")
         (disconnect (on_app (fun a => set_port_var a "   ") connected_world)) \/
   connect (on_app (fun a => set_port_var a "   ") connected_world)
     = on_app (fun a => set_status_var a "Select/enter a port")
         (disconnect (on_app (fun a => set_port_var a "   ") connected_world))) /\
  (forall i t,
     reader (app (on_app (fun a => set_port_var a "   ") connected_world)) = Some i ->
     threads (on_app (fun a => set_port_var a "   ") connected_world) !! i = Some t ->
     exists t',
       threads (connect (on_app (fun a => set_port_var a "   ") connected_world)) !! i = Some t' /\
       _stop t' = true /\
       ser t' = match ser t with Some _ => Some {| is_open := false |} | None => None end).
Proof.
  apply (connect_refused_after_teardown (on_app (fun a => set_port_var a "   ") connected_world)).
  right. reflexivity.
Defined.

(** Connect with the baud rate in full-width digits connects at 9600, and
    with a port that is a no-break space it is refused. *)
Example connect_unicode_fields :
  ((fun w => (reader (app w), map (fun t => (port t, baud t)) (threads w))) <$>
     do_actions [SetBaud "９６００"; Connect] (World_init []))
    = Some (Some 0%nat, [("COM8", 9600)]) /\
  ((fun w => (reader (app w), status_var (app w), length (threads w))) <$>
     do_actions [SetPort (String (Py.chr 194) (String (Py.chr 160) "")); Connect] (World_init []))
    = Some (None, "Select/enter a port", 0%nat).
Proof. split; vm_compute; reflexivity. Qed.

(** ** One reader at a time *)

Lemma set_cell_reader (idx : Z) (text_value : string) (a a' : GridApp) :
  set_cell idx text_value a = Some a' -> reader a' = reader a.
Proof.
  unfold set_cell.
  destruct (Py.index _ _) as [i|]; [|discriminate]. cbn [mbind option_bind].
  destruct (labels a !! i) as [row|]; [|discriminate]. cbn [mbind option_bind].
  destruct (Py.index _ _) as [j|]; [|discriminate]. cbn [mbind option_bind].
  intros [= <-]. reflexivity.
Qed.

Lemma on_message_reader (m : msg) (a a' : GridApp) :
  on_message m a = Some a' -> reader a' = reader a.
Proof.
  destruct m as [kind payload]. unfold on_message.
  destruct (String.eqb kind "__ERROR__"); [intros [= <-]; reflexivity|].
  destruct (String.eqb kind "__STATUS__"); [intros [= <-]; reflexivity|].
  destruct (String.eqb kind "value"); [|intros [= <-]; reflexivity].
  destruct (set_cell _ _ _) as [a1|] eqn:E; [|discriminate]. cbn [mbind option_bind].
  intros [= <-]. apply set_cell_reader in E. exact E.
Qed.

Lemma process_loop_reader (msgs : list msg) (a a' : GridApp) :
  process_loop msgs a = Some a' -> reader a' = reader a.
Proof.
  revert a. induction msgs as [|m rest IH]; intros a; cbn [process_loop].
  - intros [= <-]. reflexivity.
  - destruct (on_message m (set_queue a rest)) as [a1|] eqn:E; [|discriminate].
    cbn [mbind option_bind]. intros H.
    rewrite (IH _ H). apply on_message_reader in E. exact E.
Qed.

Lemma disconnect_all_stopped (w : World) : others_stopped w -> all_stopped (disconnect w).
Proof.
  intros H i t Hl. rewrite disconnect_threads in Hl.
  destruct (_stop t) eqn:Es; [reflexivity|]. exfalso.
  destruct (reader (app w)) as [r|] eqn:Er.
  - destruct (threads w !! r) as [tr|] eqn:Et.
    + destruct (decide (r = i)) as [->|Hne].
      * rewrite list_lookup_insert_eq in Hl by (eapply lookup_lt_Some; exact Et).
        injection Hl as <-.
        destruct (close_if_open_fields (set__stop tr true)) as (Hs & _).
        rewrite Hs in Es. discriminate Es.
      * rewrite list_lookup_insert_ne in Hl by exact Hne.
        specialize (H i t Hl Es). congruence.
    + specialize (H i t Hl Es). congruence.
  - specialize (H i t Hl Es). congruence.
Qed.

Lemma all_stopped_others (w : World) : all_stopped w -> others_stopped w.
Proof. intros H i t Hl Hs. rewrite (H i t Hl) in Hs. discriminate Hs. Qed.

Lemma connect_old_stopped (w : World) :
  others_stopped w ->
  forall i t, threads (connect w) !! i = Some t ->
              (i < length (threads w))%nat -> _stop t = true.
Proof.
  intros H i t Hl Hi.
  pose proof (disconnect_all_stopped w H) as Hall.
  assert (Hlen : length (threads (disconnect w)) = length (threads w))
    by (rewrite <- (length_map pc), disconnect_pcs; apply length_map).
  unfold connect in Hl.
  destruct (Py.int _) as [b|].
  - destruct (String.eqb _ _).
    + exact (Hall i t Hl).
    + cbn [threads] in Hl. rewrite lookup_app_l in Hl by lia. exact (Hall i t Hl).
  - exact (Hall i t Hl).
Qed.

Lemma connect_others_stopped (w : World) : others_stopped w -> others_stopped (connect w).
Proof.
  intros H i t Hl Hs.
  pose proof (disconnect_all_stopped w H) as Hall.
  unfold connect in *.
  destruct (Py.int _) as [b|].
  - destruct (String.eqb _ _).
    + rewrite (Hall i t Hl) in Hs. discriminate Hs.
    + cbn [threads app reader set_reader] in *.
      destruct (Nat.lt_ge_cases i (length (threads (disconnect w)))) as [Hlt|Hge].
      * rewrite lookup_app_l in Hl by exact Hlt.
        rewrite (Hall i t Hl) in Hs. discriminate Hs.
      * rewrite lookup_app_r in Hl by exact Hge.
        destruct (i - length (threads (disconnect w)))%nat as [|k] eqn:Ek; [|discriminate Hl].
        f_equal. lia.
  - rewrite (Hall i t Hl) in Hs. discriminate Hs.
Qed.

Lemma thread_step_others_stopped (j : nat) (ev : thread_event) (w : World) :
  others_stopped w -> others_stopped (on_thread j (SerialReader.step ev) w).
Proof.
  intros H i t Hl Hs. unfold on_thread in *.
  destruct (threads w !! j) as [tj|] eqn:Ej; [|exact (H i t Hl Hs)].
  pose proof (step_keeps_stop ev tj (queue (app w))) as Hk.
  destruct (SerialReader.step ev tj (queue (app w))) as [tj' q].
  cbn [threads app reader set_queue fst] in *.
  destruct (decide (j = i)) as [->|Hne].
  - rewrite list_lookup_insert_eq in Hl by (eapply lookup_lt_Some; exact Ej).
    injection Hl as <-. apply (H i tj Ej). congruence.
  - rewrite list_lookup_insert_ne in Hl by exact Hne. exact (H i t Hl Hs).
Qed.

Lemma refresh_ports_reader (ports : list string) (a : GridApp) :
  reader (refresh_ports ports a) = reader a.
Proof.
  unfold refresh_ports. destruct (negb _); [destruct ports|]; reflexivity.
Qed.

Lemma do_action_others_stopped (a : action) (w w' : World) :
  others_stopped w -> do_action a w = Some w' -> others_stopped w'.
Proof.
  intros H Hd. destruct a as [s|s|ports| | | |j ev]; cbn [do_action] in Hd.
  - injection Hd as <-. exact H.
  - injection Hd as <-. exact H.
  - injection Hd as <-. intros i t Hl Hs. cbn [on_app app threads] in *.
    rewrite refresh_ports_reader. exact (H i t Hl Hs).
  - injection Hd as <-. exact (connect_others_stopped w H).
  - injection Hd as <-. exact (all_stopped_others _ (disconnect_all_stopped w H)).
  - destruct (process_queue (app w)) as [a'|] eqn:E; [|discriminate Hd].
    cbn [mbind option_bind] in Hd. injection Hd as <-.
    intros i t Hl Hs. cbn [app threads] in *.
    unfold process_queue in E. rewrite (process_loop_reader _ _ _ E).
    exact (H i t Hl Hs).
  - injection Hd as <-. exact (thread_step_others_stopped j ev w H).
Qed.

Lemma reachable_others_stopped (w : World) : reachable w -> others_stopped w.
Proof.
  induction 1 as [ports | a w w' _ IH Hd].
  - intros i t Hl. destruct i; discriminate Hl.
  - exact (do_action_others_stopped a w w' IH Hd).
Qed.

(** What Connect does to the reader that was current: its stop event is
    set, its port is closed, its thread is where it was, and the
    controller no longer holds it. *)
Lemma connect_former_reader (w : World) (i : nat) (t : SerialReader) :
  reader (app w) = Some i -> threads w !! i = Some t ->
  exists t',
    threads (connect w) !! i = Some t' /\
    _stop t' = true /\
    ser t' = match ser t with Some _ => Some {| is_open := false |} | None => None end /\
    pc t' = pc t /\
    reader (app (connect w)) <> Some i.
Proof.
  intros Hr Hl.
  pose proof (lookup_lt_Some _ _ _ Hl) as Hi.
  pose proof (disconnect_length w) as Hlen.
  assert (Hd : threads (disconnect w) !! i = Some (SerialReader.close_if_open (set__stop t true))).
  { rewrite disconnect_threads, Hr, Hl. apply list_lookup_insert_eq. exact Hi. }
  destruct (close_if_open_fields (set__stop t true)) as (Hs & Hp & _).
  exists (SerialReader.close_if_open (set__stop t true)).
  assert (Hfields : _stop (SerialReader.close_if_open (set__stop t true)) = true /\
                    ser (SerialReader.close_if_open (set__stop t true))
                      = match ser t with Some _ => Some {| is_open := false |} | None => None end /\
                    pc (SerialReader.close_if_open (set__stop t true)) = pc t).
  { rewrite Hs, Hp, close_if_open_not_open. repeat split. }
  destruct Hfields as (F1 & F2 & F3).
  destruct (Py.int (Py.strip (baud_var (app w)))) as [b|] eqn:Hb.
  - destruct (String.eqb (Py.strip (port_var (app w))) "") eqn:Hp'.
    + apply String.eqb_eq in Hp'.
      rewrite (connect_empty_port_state w b Hb Hp').
      cbn [on_app app threads reader set_status_var].
      split; [exact Hd|]. split; [exact F1|]. split; [exact F2|]. split; [exact F3|].
      rewrite disconnect_reader. discriminate.
    + apply String.eqb_neq in Hp'.
      rewrite (connect_valid_state w b Hb Hp').
      cbn [app threads reader set_reader].
      split; [rewrite lookup_app_l by lia; exact Hd|].
      split; [exact F1|]. split; [exact F2|]. split; [exact F3|].
      intros [= E]. lia.
  - rewrite (connect_invalid_baud_state w Hb).
    cbn [on_app app threads reader set_status_var].
    split; [exact Hd|]. split; [exact F1|]. split; [exact F2|]. split; [exact F3|].
    rewrite disconnect_reader. discriminate.
Qed.

(** C9, amended: Connect sets the stop event of the current reader,
    closes its port and drops the reference to it before it creates and
    starts the new one, but does not wait for the old thread, which stays
    where it was in [run] and may still be alive when the new one starts.
    In every reachable state a thread whose stop event is not set is the
    current reader, so two threads never both run without having been
    told to stop; and in the state Connect leaves, every thread that
    existed before has its stop event set. *)
Theorem at_most_one_unstopped_worker (w : World) :
  reachable w ->
  (forall i j ti tj,
     threads w !! i = Some ti -> threads w !! j = Some tj ->
     _stop ti = false -> _stop tj = false ->
     i = j /\ reader (app w) = Some i) /\
  (forall i t,
     threads (connect w) !! i = Some t -> (i < length (threads w))%nat -> _stop t = true) /\
  (forall i t,
     reader (app w) = Some i -> threads w !! i = Some t ->
     exists t',
       threads (connect w) !! i = Some t' /\
       _stop t' = true /\
       ser t' = match ser t with Some _ => Some {| is_open := false |} | None => None end /\
       pc t' = pc t /\
       reader (app (connect w)) <> Some i).
Proof.
  intros Hr. pose proof (reachable_others_stopped w Hr) as H.
  split; [|split].
  - intros i j ti tj Hi Hj Hsi Hsj.
    pose proof (H i ti Hi Hsi) as Ei. pose proof (H j tj Hj Hsj) as Ej.
    split; [congruence | exact Ei].
  - exact (connect_old_stopped w H).
  - exact (connect_former_reader w).
Qed.

Lemma at_most_one_unstopped_worker_witness :
  (forall i j ti tj,
     threads connected_world !! i = Some ti -> threads connected_world !! j = Some tj ->
     _stop ti = false -> _stop tj = false ->
     i = j /\ reader (app connected_world) = Some i) /\
  (forall i t,
     threads (connect connected_world) !! i = Some t ->
     (i < length (threads connected_world))%nat -> _stop t = true) /\
  (forall i t,
     reader (app connected_world) = Some i -> threads connected_world !! i = Some t ->
     exists t',
       threads (connect connected_world) !! i = Some t' /\
       _stop t' = true /\
       ser t' = match ser t with Some _ => Some {| is_open := false |} | None => None end /\
       pc t' = pc t /\
       reader (app (connect connected_world)) <> Some i).
Proof.
  apply (at_most_one_unstopped_worker connected_world).
  apply (reachable_step (Thread 0 (TOpen OpenOk)) (connect (World_init []))).
  - apply (reachable_step Connect (World_init [])); [apply reachable_init | reflexivity].
  - reflexivity.
Defined.

(** C9 as stated fails: Connect pressed while a reader is in its read loop
    leaves that thread alive, in the loop with its stop event set, next to
    the new thread; both remain alive when the new thread has opened its
    port, until the old one tests its loop condition again. *)
Lemma two_workers_alive :
  ((fun w => map (fun t => (SerialReader.is_alive t, pc t, _stop t)) (threads w)) <$>
     do_actions [Connect; Thread 0 (TOpen OpenOk); Thread 0 (TTick (ReadReturns [42]));
                 Connect]
                (World_init []))
    = Some [(true, Looping, true); (true, Opening, false)] /\
  ((fun w => map (fun t => (SerialReader.is_alive t, pc t, _stop t)) (threads w)) <$>
     do_actions [Connect; Thread 0 (TOpen OpenOk); Thread 0 (TTick (ReadReturns [42]));
                 Connect; Thread 1 (TOpen OpenOk); Thread 1 (TTick (ReadReturns [7]))]
                (World_init []))
    = Some [(true, Looping, true); (true, Looping, false)].
Proof. split; vm_compute; reflexivity. Qed.

(** ** The timer callback never raises *)

Lemma connect_grid (w : World) :
  labels (app (connect w)) = labels (app w) /\ index (app (connect w)) = index (app w).
Proof.
  destruct (disconnect_fields w) as (_ & _ & _ & Hl & Hi & _).
  unfold connect. destruct (Py.int _) as [b|]; [destruct (String.eqb _ _)|];
    cbn [on_app app labels index set_status_var set_reader]; split; assumption.
Qed.

Lemma on_thread_grid (i : nat) (f : SerialReader -> list msg -> SerialReader * list msg)
    (w : World) :
  labels (app (on_thread i f w)) = labels (app w) /\
  index (app (on_thread i f w)) = index (app w).
Proof.
  unfold on_thread. destruct (threads w !! i) as [t|]; [|split; reflexivity].
  destruct (f t (queue (app w))) as [t' q]. split; reflexivity.
Qed.

Lemma refresh_ports_grid (ports : list string) (a : GridApp) :
  labels (refresh_ports ports a) = labels a /\ index (refresh_ports ports a) = index a.
Proof.
  unfold refresh_ports. destruct (negb _); [destruct ports|]; split; reflexivity.
Qed.

Lemma do_action_grid (a : action) (w w' : World) :
  grid_ok (app w) /\ cursor_ok (app w) ->
  do_action a w = Some w' ->
  grid_ok (app w') /\ cursor_ok (app w').
Proof.
  intros [Hg Hc] Hd.
  assert (Hsame : forall v : World,
             labels (app v) = labels (app w) /\ index (app v) = index (app w) ->
             grid_ok (app v) /\ cursor_ok (app v)).
  { intros v [Hl Hi]. unfold grid_ok, cursor_ok. rewrite Hl, Hi. split; assumption. }
  destruct a as [s|s|ports| | | |j ev]; cbn [do_action] in Hd.
  - injection Hd as <-. apply Hsame. split; reflexivity.
  - injection Hd as <-. apply Hsame. split; reflexivity.
  - injection Hd as <-. apply Hsame. apply refresh_ports_grid.
  - injection Hd as <-. apply Hsame. apply connect_grid.
  - injection Hd as <-. apply Hsame.
    destruct (disconnect_fields w) as (_ & _ & _ & Hl & Hi & _). split; assumption.
  - destruct (process_loop_round_robin (queue (app w)) (app w) Hg Hc)
      as (a1 & Hrun & _ & _ & Hg1 & Hc1 & _).
    unfold process_queue in Hd. rewrite Hrun in Hd. cbn [mbind option_bind] in Hd.
    injection Hd as <-. split; assumption.
  - injection Hd as <-. apply Hsame. apply on_thread_grid.
Qed.

Lemma reachable_grid (w : World) : reachable w -> grid_ok (app w) /\ cursor_ok (app w).
Proof.
  induction 1 as [ports | a w w' _ IH Hd].
  - split; [apply grid_ok_init|].
    unfold cursor_ok, World_init, GridApp_init. cbn [app].
    destruct (refresh_ports_grid ports
                {| queue := [];
                   labels := replicate (Z.to_nat ROWS)
                               (replicate (Z.to_nat COLS) {| text := ""; bg := "white" |});
                   index := 0; reader := None; last_value := "—"; status_var := "Idle";
                   port_var := DEFAULT_PORT; baud_var := Py.str DEFAULT_BAUD |}) as [_ Hi].
    rewrite Hi. cbn. split; [discriminate | reflexivity].
  - exact (do_action_grid a w w' IH Hd).
Qed.

(** In every reachable state the cursor is on the grid, so [process_queue]
    runs to its end on whatever the queue holds. *)
Lemma reachable_poll_succeeds (w : World) :
  reachable w -> exists w', do_action Poll w = Some w'.
Proof.
  intros Hr. destruct (reachable_grid w Hr) as [Hg Hc].
  destruct (process_loop_round_robin (queue (app w)) (app w) Hg Hc) as (a1 & Hrun & _).
  exists {| app := a1; threads := threads w |}.
  cbn [do_action]. unfold process_queue. rewrite Hrun. reflexivity.
Qed.

(** * Further properties of the script *)

(** ** [set_cell] at and beyond the edges of the grid *)

Lemma set_cell_labels (idx : Z) (text_value : string) (self : GridApp) :
  grid_ok self -> 0 <= idx < TOTAL_CELLS ->
  exists row,
    labels self !! Z.to_nat (idx / COLS) = Some row /\
    length row = Z.to_nat COLS /\
    set_cell idx text_value self =
      Some (set_labels self
              (<[Z.to_nat (idx / COLS) :=
                   <[Z.to_nat (idx mod COLS) :=
                       {| text := text_value;
                          bg := color_rule (match Py.int text_value with
                                            | Some v => v
                                            | None => 0
                                            end) |}]> row]> (labels self))).
Proof.
  intros Hg Hidx.
  destruct (cell_coordinates idx Hidx) as [Hr Hc].
  destruct (grid_ok_row self (Z.to_nat (idx / COLS)) Hg) as [row [Hrow Hlen]]; [lia|].
  pose proof Hg as [Hlen0 _].
  exists row. split; [exact Hrow|]. split; [exact Hlen|].
  unfold set_cell.
  rewrite (py_index_in_range (length (labels self)) (idx / COLS)) by lia.
  cbn [mbind option_bind]. rewrite Hrow. cbn [mbind option_bind].
  rewrite (py_index_in_range (length row) (idx mod COLS)) by lia.
  reflexivity.
Qed.

Lemma set_cell_only_labels (idx : Z) (text_value : string) (a a' : GridApp) :
  set_cell idx text_value a = Some a' -> a' = set_labels a (labels a').
Proof.
  unfold set_cell.
  destruct (Py.index _ _) as [i|]; [|discriminate]. cbn [mbind option_bind].
  destruct (labels a !! i) as [row|]; [|discriminate]. cbn [mbind option_bind].
  destruct (Py.index _ _) as [j|]; [|discriminate]. cbn [mbind option_bind].
  intros [= <-]. reflexivity.
Qed.

Lemma cell_coordinates_differ (idx idx' : Z) :
  idx <> idx' -> idx / COLS <> idx' / COLS \/ idx mod COLS <> idx' mod COLS.
Proof.
  intros Hne.
  destruct (Z.eq_dec (idx / COLS) (idx' / COLS)) as [Ed|Nd]; [|left; exact Nd].
  right. intros Em. apply Hne.
  rewrite (Z.div_mod idx COLS), (Z.div_mod idx' COLS) by (unfold COLS; lia).
  rewrite Ed, Em. reflexivity.
Qed.

(** [set_cell] leaves every cell but the addressed one as it was. *)
Lemma set_cell_frame (idx idx' : Z) (text_value : string) (self self' : GridApp) :
  grid_ok self -> 0 <= idx < TOTAL_CELLS -> 0 <= idx' < TOTAL_CELLS ->
  idx <> idx' ->
  set_cell idx text_value self = Some self' ->
  cell idx' self' = cell idx' self.
Proof.
  intros Hg Hidx Hidx' Hne Hset.
  destruct (set_cell_labels idx text_value self Hg Hidx) as (row & Hrow & Hlen & E).
  rewrite E in Hset. injection Hset as <-.
  destruct (cell_coordinates idx Hidx) as [Hr Hc].
  destruct (cell_coordinates idx' Hidx') as [Hr' Hc'].
  unfold cell. cbn [labels set_labels].
  destruct (Z.eq_dec (idx / COLS) (idx' / COLS)) as [Ed|Nd].
  - rewrite <- Ed.
    rewrite list_lookup_insert_eq by (eapply lookup_lt_Some; exact Hrow).
    rewrite Hrow. cbn [mbind option_bind].
    apply list_lookup_insert_ne.
    destruct (cell_coordinates_differ idx idx' Hne) as [H|H]; [contradiction|].
    intros Ej. apply H. lia.
  - rewrite list_lookup_insert_ne by (intros Ej; apply Nd; lia). reflexivity.
Qed.

(** X1: for an index on the grid [set_cell] does not raise and changes
    the addressed label only: every other cell shows what it showed
    before, the grid keeps its shape, and no other attribute of the
    controller is touched. *)
Theorem set_cell_changes_one_cell (idx : Z) (text_value : string) (self : GridApp) :
  grid_ok self -> 0 <= idx < TOTAL_CELLS ->
  exists self',
    set_cell idx text_value self = Some self' /\
    self' = set_labels self (labels self') /\
    grid_ok self' /\
    forall idx', 0 <= idx' < TOTAL_CELLS -> idx' <> idx -> cell idx' self' = cell idx' self.
Proof.
  intros Hg Hidx.
  destruct (set_cell_spec idx text_value self Hg Hidx) as (self' & Hset & _ & Hg' & _).
  exists self'. split; [exact Hset|].
  split; [exact (set_cell_only_labels idx text_value self self' Hset)|].
  split; [exact Hg'|].
  intros idx' Hidx' Hne.
  apply (set_cell_frame idx idx' text_value self self' Hg Hidx Hidx'); [|exact Hset].
  intros E. apply Hne. symmetry. exact E.
Qed.

Lemma set_cell_changes_one_cell_witness :
  exists self',
    set_cell 3 "42" (GridApp_init []) = Some self' /\
    self' = set_labels (GridApp_init []) (labels self') /\
    grid_ok self' /\
    forall idx', 0 <= idx' < TOTAL_CELLS -> idx' <> 3 ->
                 cell idx' self' = cell idx' (GridApp_init []).
Proof.
  apply (set_cell_changes_one_cell 3 "42" (GridApp_init [])).
  - apply grid_ok_init.
  - unfold TOTAL_CELLS, ROWS, COLS. lia.
Defined.

(** X2: on the 20x10 grid [set_cell] raises [IndexError] for an index of
    200 or more and for an index below -200. *)
Theorem set_cell_index_error (idx : Z) (text_value : string) (self : GridApp) :
  grid_ok self -> TOTAL_CELLS <= idx \/ idx < - TOTAL_CELLS ->
  set_cell idx text_value self = None.
Proof.
  intros [Hlen _] H. unfold set_cell. rewrite Hlen.
  assert (Hr : ROWS <= idx / COLS \/ idx / COLS < - ROWS).
  { unfold TOTAL_CELLS, ROWS, COLS in *. destruct H as [H|H].
    - left. apply Z.div_le_lower_bound; lia.
    - right. apply Z.div_lt_upper_bound; lia. }
  unfold Py.index.
  replace (Z.of_nat (Z.to_nat ROWS)) with ROWS by (unfold ROWS; lia).
  destruct Hr as [Hr|Hr].
  - destruct (0 <=? idx / COLS) eqn:E1; destruct (idx / COLS <? ROWS) eqn:E2;
      destruct (- ROWS <=? idx / COLS) eqn:E3; destruct (idx / COLS <? 0) eqn:E4;
      try reflexivity; lia.
  - destruct (0 <=? idx / COLS) eqn:E1; destruct (idx / COLS <? ROWS) eqn:E2;
      destruct (- ROWS <=? idx / COLS) eqn:E3; destruct (idx / COLS <? 0) eqn:E4;
      try reflexivity; unfold ROWS in *; lia.
Qed.

Lemma set_cell_index_error_witness : set_cell 200 "5" (GridApp_init []) = None.
Proof.
  apply (set_cell_index_error 200 "5" (GridApp_init [])).
  - apply grid_ok_init.
  - left. unfold TOTAL_CELLS, ROWS, COLS. lia.
Defined.

(** X3: a negative index from -200 to -1 does not raise: by Python's
    indexing from the end, [set_cell] then writes the cell 200 places
    further, so that -1 is the last cell. *)
Theorem set_cell_negative_index (idx : Z) (text_value : string) (self : GridApp) :
  grid_ok self -> - TOTAL_CELLS <= idx < 0 ->
  set_cell idx text_value self = set_cell (idx + TOTAL_CELLS) text_value self.
Proof.
  intros [Hlen _] H. unfold set_cell. rewrite Hlen.
  assert (Ed : (idx + TOTAL_CELLS) / COLS = idx / COLS + ROWS).
  { unfold TOTAL_CELLS. apply Z.div_add. unfold COLS. lia. }
  assert (Em : (idx + TOTAL_CELLS) mod COLS = idx mod COLS).
  { unfold TOTAL_CELLS. apply Z.mod_add. unfold COLS. lia. }
  rewrite Ed, Em.
  assert (Hr : - ROWS <= idx / COLS < 0).
  { unfold TOTAL_CELLS, ROWS, COLS in *. split.
    - apply Z.div_le_lower_bound; lia.
    - apply Z.div_lt_upper_bound; lia. }
  assert (Ei : Py.index (Z.to_nat ROWS) (idx / COLS)
               = Py.index (Z.to_nat ROWS) (idx / COLS + ROWS)).
  { unfold Py.index.
    replace (Z.of_nat (Z.to_nat ROWS)) with ROWS by (unfold ROWS; lia).
    destruct (0 <=? idx / COLS) eqn:E1; [lia|].
    destruct (- ROWS <=? idx / COLS) eqn:E3; [|lia].
    destruct (idx / COLS <? 0) eqn:E4; [|lia].
    destruct (0 <=? idx / COLS + ROWS) eqn:E5; [|lia].
    destruct (idx / COLS + ROWS <? ROWS) eqn:E6; [|lia].
    reflexivity. }
  rewrite Ei. reflexivity.
Qed.

Lemma set_cell_negative_index_witness :
  set_cell (-1) "7" (GridApp_init []) = set_cell (-1 + TOTAL_CELLS) "7" (GridApp_init []).
Proof.
  apply (set_cell_negative_index (-1) "7" (GridApp_init [])).
  - apply grid_ok_init.
  - unfold TOTAL_CELLS, ROWS, COLS. lia.
Defined.

(** ** What the grid shows after a drain *)

Lemma cursor_step_differs (i d : Z) :
  0 <= i < TOTAL_CELLS -> 0 < d < TOTAL_CELLS -> (i + d) mod TOTAL_CELLS <> i.
Proof.
  unfold TOTAL_CELLS, ROWS, COLS. change (20 * 10) with 200. intros Hi Hd E.
  destruct (Z_lt_ge_dec (i + d) 200) as [Hlt|Hge].
  - rewrite Z.mod_small in E by lia. lia.
  - assert (E' : (i + d) mod 200 = i + d - 200).
    { symmetry. apply (Z.mod_unique (i + d) 200 1); lia. }
    rewrite E' in E. lia.
Qed.

(** One message: the drain goes on, and only the cell under the cursor can
    change, and only for a reading. *)
Lemma on_message_ok (m : msg) (a : GridApp) :
  grid_ok a -> cursor_ok a ->
  exists a1,
    on_message m a = Some a1 /\ grid_ok a1 /\ cursor_ok a1 /\
    index a1 = (index a + (if is_value m then 1 else 0)) mod TOTAL_CELLS /\
    (forall j, 0 <= j < TOTAL_CELLS -> is_value m = false \/ j <> index a ->
               cell j a1 = cell j a) /\
    (is_value m = true ->
     cell (index a) a1 =
       Some {| text := snd m;
               bg := color_rule (match Py.int (snd m) with Some v => v | None => 0 end) |}).
Proof.
  intros Hg Hc. destruct (is_value m) eqn:Hm.
  - destruct m as [kind payload]. unfold is_value in Hm. cbn [fst] in Hm.
    apply String.eqb_eq in Hm. subst kind.
    destruct (on_message_value payload a Hg Hc) as (a1 & H1 & Hi & Hg1 & Hc1 & Hcell & _).
    exists a1. split; [exact H1|]. split; [exact Hg1|]. split; [exact Hc1|].
    split; [exact Hi|]. split; [|intros _; exact Hcell].
    intros j Hj [Hf|Hne]; [discriminate Hf|].
    unfold on_message in H1.
    change (String.eqb "value" "__ERROR__") with false in H1.
    change (String.eqb "value" "__STATUS__") with false in H1.
    change (String.eqb "value" "value") with true in H1. cbv iota in H1.
    destruct (set_cell (index a) payload (set_last_value a payload)) as [a0|] eqn:E;
      [|discriminate H1].
    cbn [mbind option_bind] in H1. injection H1 as <-.
    change (cell j (set_index a0 ((index a0 + 1) mod TOTAL_CELLS))) with (cell j a0).
    change (cell j a) with (cell j (set_last_value a payload)).
    apply (set_cell_frame (index a) j payload (set_last_value a payload) a0);
      try assumption. intros E'. apply Hne. symmetry. exact E'.
  - destruct (on_message_not_value m a Hm) as (a1 & H1 & Hl & Hi & _).
    exists a1. split; [exact H1|].
    split; [unfold grid_ok; rewrite Hl; exact Hg|].
    split; [unfold cursor_ok; rewrite Hi; exact Hc|].
    split; [rewrite Hi, Z.add_0_r, Z.mod_small; [reflexivity | exact Hc]|].
    split; [|discriminate].
    intros j _ _. unfold cell. rewrite Hl. reflexivity.
Qed.

(** A cell that the cursor does not visit during a drain is not changed. *)
Lemma process_loop_frame (msgs : list msg) (a a' : GridApp) (j : Z) :
  grid_ok a -> cursor_ok a -> 0 <= j < TOTAL_CELLS ->
  process_loop msgs a = Some a' ->
  ~ In j (cursor_visits msgs a) ->
  cell j a' = cell j a.
Proof.
  revert a. induction msgs as [|m rest IH]; intros a Hg Hc Hj Hrun Hnot.
  - cbn in Hrun. injection Hrun as <-. reflexivity.
  - cbn [process_loop cursor_visits] in Hrun, Hnot.
    destruct (on_message_ok m (set_queue a rest) Hg Hc)
      as (a1 & H1 & Hg1 & Hc1 & _ & Hframe & _).
    rewrite H1 in Hrun, Hnot. cbn [mbind option_bind] in Hrun.
    rewrite in_app_iff in Hnot.
    rewrite (IH a1 Hg1 Hc1 Hj Hrun) by (intros H; apply Hnot; right; exact H).
    change (cell j a) with (cell j (set_queue a rest)).
    apply Hframe; [exact Hj|].
    destruct (is_value m); [right | left; reflexivity].
    intros E. apply Hnot. left. left. symmetry. exact E.
Qed.

(** A reading stays in the cell it was written to while fewer than 200
    readings follow it. *)
Lemma reading_in_cell (pre post : list msg) (payload : string) (a : GridApp) :
  grid_ok a -> cursor_ok a -> (count_values post < 200)%nat ->
  exists a',
    process_loop (pre ++ ("value", payload) :: post)%list a = Some a' /\
    cell ((index a + Z.of_nat (count_values pre)) mod TOTAL_CELLS) a' =
      Some {| text := payload;
              bg := color_rule (match Py.int payload with Some v => v | None => 0 end) |}.
Proof.
  intros Hg Hc Hpost. revert a Hg Hc.
  induction pre as [|m pre IH]; intros a Hg Hc.
  - cbn [Datatypes.app process_loop]. unfold count_values at 1. cbn [List.filter length Z.of_nat].
    rewrite Z.add_0_r, (Z.mod_small (index a)) by exact Hc.
    destruct (on_message_ok ("value", payload) (set_queue a post) Hg Hc)
      as (a1 & H1 & Hg1 & Hc1 & Hi1 & _ & Hcell).
    rewrite H1. cbn [mbind option_bind].
    destruct (process_loop_round_robin post a1 Hg1 Hc1) as (a' & Hrun & Hvis & _).
    exists a'. split; [exact Hrun|].
    pose proof (Hcell eq_refl) as Hcell'. cbn [snd index set_queue] in Hcell'.
    rewrite <- Hcell'.
    apply (process_loop_frame post a1 a' (index a) Hg1 Hc1 Hc Hrun).
    rewrite Hvis, in_map_iff. intros (k & Ek & Hk). apply in_seq in Hk.
    rewrite Hi1 in Ek. cbn [index set_queue is_value fst] in Ek.
    change (String.eqb "value" "value") with true in Ek. cbv iota in Ek.
    rewrite Z.add_mod_idemp_l in Ek by (unfold TOTAL_CELLS, ROWS, COLS; lia).
    rewrite <- Z.add_assoc in Ek.
    apply (cursor_step_differs (index a) (1 + Z.of_nat k) Hc);
      [unfold TOTAL_CELLS, ROWS, COLS; lia | exact Ek].
  - cbn [Datatypes.app process_loop].
    destruct (on_message_ok m (set_queue a (pre ++ ("value", payload) :: post)%list) Hg Hc)
      as (a1 & H1 & Hg1 & Hc1 & Hi1 & _).
    rewrite H1. cbn [mbind option_bind].
    destruct (IH a1 Hg1 Hc1) as (a' & Hrun & Hcell).
    exists a'. split; [exact Hrun|].
    rewrite <- Hcell. f_equal.
    rewrite Hi1. cbn [index set_queue].
    rewrite Z.add_mod_idemp_l by (unfold TOTAL_CELLS, ROWS, COLS; lia).
    f_equal. unfold count_values. cbn [List.filter].
    destruct (is_value m); cbn [length]; lia.
Qed.

Lemma count_values_app (l1 l2 : list msg) :
  count_values (l1 ++ l2)%list = (count_values l1 + count_values l2)%nat.
Proof. unfold count_values. rewrite List.filter_app, length_app. reflexivity. Qed.

(** X4: a reading is shown in the cell the cursor pointed at when it was
    consumed, with the colour of its value, and stays there as long as
    fewer than 200 readings follow it: after a drain of
    [pre ++ reading :: post] the cell at the starting cursor plus the
    number of readings in [pre], modulo 200, shows the reading, and the
    cursor has moved on by the number of all readings. *)
Theorem reading_displayed (pre post : list msg) (payload : string) (a : GridApp) :
  grid_ok a -> cursor_ok a -> (count_values post < 200)%nat ->
  exists a',
    process_loop (pre ++ ("value", payload) :: post)%list a = Some a' /\
    cell ((index a + Z.of_nat (count_values pre)) mod TOTAL_CELLS) a' =
      Some {| text := payload;
              bg := color_rule (match Py.int payload with Some v => v | None => 0 end) |} /\
    index a' =
      (index a + Z.of_nat (count_values pre + 1 + count_values post)) mod TOTAL_CELLS.
Proof.
  intros Hg Hc Hpost.
  destruct (reading_in_cell pre post payload a Hg Hc Hpost) as (a' & Hrun & Hcell).
  destruct (process_loop_round_robin (pre ++ ("value", payload) :: post)%list a Hg Hc)
    as (a2 & Hrun2 & _ & Hidx & _).
  rewrite Hrun in Hrun2. injection Hrun2 as <-.
  exists a'. split; [exact Hrun|]. split; [exact Hcell|].
  rewrite Hidx, count_values_app. do 2 f_equal.
  unfold count_values. cbn [List.filter].
  change (is_value ("value", payload)) with true. cbn [length]. lia.
Qed.

Lemma reading_displayed_witness :
  exists a',
    process_loop ([("__STATUS__", "up"); ("value", "5")] ++ ("value", "61") :: [("value", "x")])%list
                 (GridApp_init []) = Some a' /\
    cell ((index (GridApp_init [])
           + Z.of_nat (count_values [("__STATUS__", "up"); ("value", "5")])) mod TOTAL_CELLS) a' =
      Some {| text := "61";
              bg := color_rule (match Py.int "61" with Some v => v | None => 0 end) |} /\
    index a' =
      (index (GridApp_init [])
       + Z.of_nat (count_values [("__STATUS__", "up"); ("value", "5")] + 1
                   + count_values [("value", "x")])) mod TOTAL_CELLS.
Proof.
  apply (reading_displayed [("__STATUS__", "up"); ("value", "5")] [("value", "x")] "61"
           (GridApp_init [])).
  - apply grid_ok_init.
  - unfold cursor_ok, TOTAL_CELLS, ROWS, COLS. cbn. lia.
  - cbn. lia.
Defined.

(** ** What the readouts show after a drain *)

Lemma last_cons_default {A : Type} (l : list A) (x d : A) :
  List.last (x :: l) d = List.last l x.
Proof.
  revert x d. induction l as [|y l IH]; intros x d; [reflexivity|].
  change (List.last (x :: y :: l) d) with (List.last (y :: l) d).
  rewrite (IH y d), (IH y x). reflexivity.
Qed.

Lemma last_app_default {A : Type} (l1 l2 : list A) (d : A) :
  List.last (l1 ++ l2)%list d = List.last l2 (List.last l1 d).
Proof.
  revert d. induction l1 as [|x l1 IH]; intros d; [reflexivity|].
  change ((x :: l1) ++ l2)%list with (x :: (l1 ++ l2))%list.
  rewrite !last_cons_default. apply IH.
Qed.

(** The fields other than the grid and the cursor after one message. *)
Lemma on_message_readouts (m : msg) (a a1 : GridApp) :
  on_message m a = Some a1 ->
  last_value a1 = List.last (value_texts [m]) (last_value a) /\
  status_var a1 = List.last (status_texts [m]) (status_var a) /\
  queue a1 = queue a /\ port_var a1 = port_var a /\ baud_var a1 = baud_var a.
Proof.
  destruct m as [kind payload].
  unfold on_message, value_texts, status_texts, is_value.
  cbn [flat_map List.filter fst snd].
  destruct (String.eqb kind "__ERROR__") eqn:Ee.
  { apply String.eqb_eq in Ee. subst kind. intros [= <-]. repeat split. }
  destruct (String.eqb kind "__STATUS__") eqn:Es.
  { apply String.eqb_eq in Es. subst kind. intros [= <-]. repeat split. }
  destruct (String.eqb kind "value") eqn:Ev; [|intros [= <-]; repeat split].
  destruct (set_cell (index a) payload (set_last_value a payload)) as [a0|] eqn:E;
    [|discriminate].
  cbn [mbind option_bind]. intros [= <-].
  apply set_cell_only_labels in E. rewrite E. repeat split.
Qed.

Lemma value_texts_cons (m : msg) (rest : list msg) :
  value_texts (m :: rest) = (value_texts [m] ++ value_texts rest)%list.
Proof. unfold value_texts. cbn [List.filter]. destruct (is_value m); reflexivity. Qed.

Lemma status_texts_cons (m : msg) (rest : list msg) :
  status_texts (m :: rest) = (status_texts [m] ++ status_texts rest)%list.
Proof. unfold status_texts. cbn [flat_map]. rewrite app_nil_r. reflexivity. Qed.

Lemma process_loop_readouts (msgs : list msg) (a a' : GridApp) :
  process_loop msgs a = Some a' ->
  last_value a' = List.last (value_texts msgs) (last_value a) /\
  status_var a' = List.last (status_texts msgs) (status_var a) /\
  queue a' = match msgs with [] => queue a | _ => [] end /\
  port_var a' = port_var a /\ baud_var a' = baud_var a.
Proof.
  revert a. induction msgs as [|m rest IH]; intros a Hrun.
  - cbn in Hrun. injection Hrun as <-. repeat split.
  - cbn [process_loop] in Hrun.
    destruct (on_message m (set_queue a rest)) as [a1|] eqn:E1; [|discriminate Hrun].
    cbn [mbind option_bind] in Hrun.
    destruct (on_message_readouts m _ a1 E1) as (Hl1 & Hs1 & Hq1 & Hp1 & Hb1).
    destruct (IH a1 Hrun) as (Hl & Hs & Hq & Hp & Hb).
    cbn [last_value status_var queue port_var baud_var set_queue] in *.
    rewrite value_texts_cons, status_texts_cons.
    rewrite !last_app_default, <- Hl1, <- Hs1.
    split; [exact Hl|]. split; [exact Hs|].
    split; [rewrite Hq, Hq1; destruct rest; reflexivity|].
    split; congruence.
Qed.

(** X5: a run of [process_queue] with the cursor on the grid does not
    raise and empties the queue; afterwards the last-value readout is the
    text of the last reading that was queued and the status text is that
    of the last status or error message that was queued (an error with
    the prefix "Error: "), each unchanged when no such message was queued;
    the reader reference and the port and baud fields are untouched. *)
Theorem process_queue_readouts (a : GridApp) :
  grid_ok a -> cursor_ok a ->
  exists a',
    process_queue a = Some a' /\
    queue a' = [] /\
    last_value a' = List.last (value_texts (queue a)) (last_value a) /\
    status_var a' = List.last (status_texts (queue a)) (status_var a) /\
    reader a' = reader a /\ port_var a' = port_var a /\ baud_var a' = baud_var a.
Proof.
  intros Hg Hc. unfold process_queue.
  destruct (process_loop_round_robin (queue a) a Hg Hc) as (a' & Hrun & _ & _ & _ & _ & Hr).
  destruct (process_loop_readouts (queue a) a a' Hrun) as (Hl & Hs & Hq & Hp & Hb).
  exists a'. split; [exact Hrun|].
  split; [rewrite Hq; destruct (queue a); reflexivity|].
  repeat split; assumption.
Qed.

Lemma process_queue_readouts_witness :
  exists a',
    process_queue (set_queue (GridApp_init [])
                     [("value", "5"); ("__ERROR__", "Read error: x"); ("value", "15")]) = Some a' /\
    queue a' = [] /\
    last_value a' =
      List.last (value_texts (queue (set_queue (GridApp_init [])
                     [("value", "5"); ("__ERROR__", "Read error: x"); ("value", "15")])))
                (last_value (set_queue (GridApp_init [])
                     [("value", "5"); ("__ERROR__", "Read error: x"); ("value", "15")])) /\
    status_var a' =
      List.last (status_texts (queue (set_queue (GridApp_init [])
                     [("value", "5"); ("__ERROR__", "Read error: x"); ("value", "15")])))
                (status_var (set_queue (GridApp_init [])
                     [("value", "5"); ("__ERROR__", "Read error: x"); ("value", "15")])) /\
    reader a' = reader (set_queue (GridApp_init [])
                     [("value", "5"); ("__ERROR__", "Read error: x"); ("value", "15")]) /\
    port_var a' = port_var (set_queue (GridApp_init [])
                     [("value", "5"); ("__ERROR__", "Read error: x"); ("value", "15")]) /\
    baud_var a' = baud_var (set_queue (GridApp_init [])
                     [("value", "5"); ("__ERROR__", "Read error: x"); ("value", "15")]).
Proof.
  apply (process_queue_readouts
           (set_queue (GridApp_init [])
              [("value", "5"); ("__ERROR__", "Read error: x"); ("value", "15")])).
  - apply (grid_ok_init []).
  - unfold cursor_ok, TOTAL_CELLS, ROWS, COLS. cbn. lia.
Defined.

(** X6: in every state the controller can reach, whatever the user and
    the threads have done, the grid has its 20 rows of 10 labels and the
    cursor is between 0 and 199, so the timer callback [process_queue]
    never raises. *)
Theorem timer_callback_never_raises (w : World) :
  reachable w ->
  length (labels (app w)) = 20%nat /\
  Forall (fun row => length row = 10%nat) (labels (app w)) /\
  0 <= index (app w) <= 199 /\
  exists w', do_action Poll w = Some w'.
Proof.
  intros Hr. destruct (reachable_grid w Hr) as [Hg Hc].
  destruct Hg as [Hlen Hrows].
  split; [exact Hlen|]. split; [exact Hrows|].
  split; [unfold cursor_ok, TOTAL_CELLS, ROWS, COLS in Hc; lia|].
  destruct (process_loop_round_robin (queue (app w)) (app w) (conj Hlen Hrows) Hc)
    as (a1 & Hrun & _).
  exists {| app := a1; threads := threads w |}.
  cbn [do_action]. unfold process_queue. rewrite Hrun. reflexivity.
Qed.

Lemma timer_callback_never_raises_witness :
  length (labels (app connected_world)) = 20%nat /\
  Forall (fun row => length row = 10%nat) (labels (app connected_world)) /\
  0 <= index (app connected_world) <= 199 /\
  exists w', do_action Poll connected_world = Some w'.
Proof.
  apply (timer_callback_never_raises connected_world).
  apply (reachable_step (Thread 0 (TOpen OpenOk)) (connect (World_init []))).
  - apply (reachable_step Connect (World_init [])); [apply reachable_init | reflexivity].
  - reflexivity.
Defined.

(** ** Connect, and the reader the controller holds *)

(** X7: when the baud text parses and the stripped port is not empty,
    Connect creates exactly one reader, for the stripped port and the
    parsed baud rate in raw mode, starts its thread, makes it the current
    reader and shows "Connecting to <port> @ <baud> ..."; the threads that
    existed keep their place in [run], and nothing is put on the queue. *)
Theorem connect_starts_one_reader (w : World) (b : Z) :
  Py.int (Py.strip (baud_var (app w))) = Some b ->
  Py.strip (port_var (app w)) <> "" ->
  reader (app (connect w)) = Some (length (threads w)) /\
  threads (connect w) !! length (threads w) =
    Some {| port := Py.strip (port_var (app w)); baud := b; text_mode := false;
            _stop := false; ser := None; pc := Opening |} /\
  length (threads (connect w)) = S (length (threads w)) /\
  map pc (take (length (threads w)) (threads (connect w))) = map pc (threads w) /\
  status_var (app (connect w)) =
    "Connecting to " ++ Py.strip (port_var (app w)) ++ " @ " ++ Py.str b ++ " ..." /\
  queue (app (connect w)) = queue (app w).
Proof.
  intros Hb Hp. rewrite (connect_valid_state w b Hb Hp).
  cbn [app threads reader set_reader status_var set_status_var queue].
  pose proof (disconnect_length w) as Hlen.
  destruct (disconnect_fields w) as (_ & _ & Hq & _).
  split; [rewrite Hlen; reflexivity|].
  split.
  { rewrite <- Hlen, lookup_app_r by lia. rewrite Nat.sub_diag. reflexivity. }
  split; [rewrite length_app, Hlen; cbn [length]; lia|].
  split.
  { rewrite <- Hlen, take_app_length. apply disconnect_pcs. }
  split; [reflexivity | exact Hq].
Qed.

Lemma connect_starts_one_reader_witness :
  reader (app (connect connected_world)) = Some (length (threads connected_world)) /\
  threads (connect connected_world) !! length (threads connected_world) =
    Some {| port := Py.strip (port_var (app connected_world)); baud := 115200;
            text_mode := false; _stop := false; ser := None; pc := Opening |} /\
  length (threads (connect connected_world)) = S (length (threads connected_world)) /\
  map pc (take (length (threads connected_world)) (threads (connect connected_world)))
    = map pc (threads connected_world) /\
  status_var (app (connect connected_world)) =
    "Connecting to " ++ Py.strip (port_var (app connected_world)) ++ " @ "
      ++ Py.str 115200 ++ " ..." /\
  queue (app (connect connected_world)) = queue (app connected_world).
Proof.
  apply (connect_starts_one_reader connected_world 115200).
  - reflexivity.
  - discriminate.
Defined.

Lemma step_keeps_started (ev : thread_event) (t : SerialReader) (q : list msg) :
  pc t <> NotStarted -> pc (fst (SerialReader.step ev t q)) <> NotStarted.
Proof.
  intros H. unfold SerialReader.step.
  destruct (pc t) eqn:E, ev as [o|r]; cbn [fst]; try (rewrite E; exact H).
  - destruct o; discriminate.
  - unfold SerialReader.run_iter, SerialReader.run_exit.
    destruct (_stop t); [discriminate|].
    destruct (SerialReader.run_body r t q) as [[|] q']; cbn [fst];
      [discriminate | rewrite E; discriminate].
Qed.

Lemma disconnect_started (w : World) :
  (forall i t, threads w !! i = Some t -> pc t <> NotStarted) ->
  forall i t, threads (disconnect w) !! i = Some t -> pc t <> NotStarted.
Proof.
  intros H i t Hl. rewrite disconnect_threads in Hl.
  destruct (reader (app w)) as [r|]; [|exact (H i t Hl)].
  destruct (threads w !! r) as [tr|] eqn:Er; [|exact (H i t Hl)].
  destruct (decide (r = i)) as [->|Hne].
  - rewrite list_lookup_insert_eq in Hl by (eapply lookup_lt_Some; exact Er).
    injection Hl as <-.
    destruct (close_if_open_fields (set__stop tr true)) as (_ & Hpc & _).
    rewrite Hpc. exact (H i tr Er).
  - rewrite list_lookup_insert_ne in Hl by exact Hne. exact (H i t Hl).
Qed.

Lemma connect_reader_ok (w : World) : reader_ok w -> reader_ok (connect w).
Proof.
  intros [_ Hst].
  pose proof (disconnect_started w Hst) as Hst'.
  pose proof (disconnect_reader w) as Hr.
  unfold connect.
  destruct (Py.int _) as [b|]; [destruct (String.eqb _ _)|].
  - split; [cbn [on_app app reader set_status_var]; rewrite Hr; discriminate | exact Hst'].
  - split.
    + cbn [app threads reader set_reader]. intros i [= <-].
      eexists. rewrite lookup_app_r by lia. rewrite Nat.sub_diag.
      split; reflexivity.
    + cbn [threads]. intros i t Hl.
      destruct (Nat.lt_ge_cases i (length (threads (disconnect w)))) as [Hlt|Hge].
      * rewrite lookup_app_l in Hl by exact Hlt. exact (Hst' i t Hl).
      * rewrite lookup_app_r in Hl by exact Hge.
        destruct (i - length (threads (disconnect w)))%nat; [|discriminate Hl].
        injection Hl as <-. discriminate.
  - split; [cbn [on_app app reader set_status_var]; rewrite Hr; discriminate | exact Hst'].
Qed.

Lemma thread_step_reader_ok (j : nat) (ev : thread_event) (w : World) :
  reader_ok w -> reader_ok (on_thread j (SerialReader.step ev) w).
Proof.
  intros [Hcur Hst]. unfold on_thread.
  destruct (threads w !! j) as [tj|] eqn:Ej; [|split; assumption].
  pose proof (step_keeps_stop ev tj (queue (app w))) as Hk.
  pose proof (step_keeps_started ev tj (queue (app w)) (Hst j tj Ej)) as Hp.
  destruct (SerialReader.step ev tj (queue (app w))) as [tj' q].
  cbn [fst] in Hk, Hp. unfold reader_ok. cbn [app threads reader set_queue]. split.
  - intros i Hi. destruct (Hcur i Hi) as (t & Ht & Hs).
    destruct (decide (j = i)) as [->|Hne].
    + exists tj'. rewrite list_lookup_insert_eq by (eapply lookup_lt_Some; exact Ej).
      split; [reflexivity|]. rewrite Hk. congruence.
    + exists t. rewrite list_lookup_insert_ne by exact Hne. split; assumption.
  - intros i t Hl. destruct (decide (j = i)) as [->|Hne].
    + rewrite list_lookup_insert_eq in Hl by (eapply lookup_lt_Some; exact Ej).
      injection Hl as <-. exact Hp.
    + rewrite list_lookup_insert_ne in Hl by exact Hne. exact (Hst i t Hl).
Qed.

Lemma do_action_reader_ok (a : action) (w w' : World) :
  reader_ok w -> do_action a w = Some w' -> reader_ok w'.
Proof.
  intros H Hd. destruct a as [s|s|ports| | | |j ev]; cbn [do_action] in Hd.
  - injection Hd as <-. exact H.
  - injection Hd as <-. exact H.
  - injection Hd as <-. destruct H as [Hcur Hst]. split; [|exact Hst].
    cbn [on_app app threads]. rewrite refresh_ports_reader. exact Hcur.
  - injection Hd as <-. exact (connect_reader_ok w H).
  - injection Hd as <-. destruct H as [_ Hst]. split.
    + rewrite disconnect_reader. discriminate.
    + exact (disconnect_started w Hst).
  - destruct (process_queue (app w)) as [a'|] eqn:E; [|discriminate Hd].
    cbn [mbind option_bind] in Hd. injection Hd as <-.
    destruct H as [Hcur Hst]. split; [|exact Hst].
    cbn [app threads]. unfold process_queue in E.
    rewrite (process_loop_reader _ _ _ E). exact Hcur.
  - injection Hd as <-. exact (thread_step_reader_ok j ev w H).
Qed.

Lemma reachable_reader_ok (w : World) : reachable w -> reader_ok w.
Proof.
  induction 1 as [ports | a w w' _ IH Hd].
  - split.
    + unfold World_init, GridApp_init. cbn [app]. rewrite refresh_ports_reader. discriminate.
    + intros i t Hl. destruct i; discriminate Hl.
  - exact (do_action_reader_ok a w w' IH Hd).
Qed.

(** X8: in every reachable state the current reader, if there is one, is
    a reader that exists, whose thread has been started and whose stop
    event is not set; and every reader ever created has been started. *)
Theorem current_reader_started_not_stopped (w : World) :
  reachable w ->
  (forall i, reader (app w) = Some i ->
     exists t, threads w !! i = Some t /\ _stop t = false /\ pc t <> NotStarted) /\
  (forall i t, threads w !! i = Some t -> pc t <> NotStarted).
Proof.
  intros Hr. destruct (reachable_reader_ok w Hr) as [Hcur Hst].
  split; [|exact Hst].
  intros i Hi. destruct (Hcur i Hi) as (t & Ht & Hs).
  exists t. split; [exact Ht|]. split; [exact Hs | exact (Hst i t Ht)].
Qed.

Lemma current_reader_started_not_stopped_witness :
  (forall i, reader (app connected_world) = Some i ->
     exists t, threads connected_world !! i = Some t /\ _stop t = false /\ pc t <> NotStarted) /\
  (forall i t, threads connected_world !! i = Some t -> pc t <> NotStarted).
Proof.
  apply (current_reader_started_not_stopped connected_world).
  apply (reachable_step (Thread 0 (TOpen OpenOk)) (connect (World_init []))).
  - apply (reachable_step Connect (World_init [])); [apply reachable_init | reflexivity].
  - reflexivity.
Defined.

(** ** The read loop *)

Lemma run_body_values (r : read_outcome) (t : SerialReader) (q : list msg) :
  is_serial_exception r = false ->
  exists vals,
    SerialReader.run_body r t q = (false, (q ++ vals)%list) /\
    forallb is_value vals = true /\ (length vals <= 1)%nat.
Proof.
  intros H. unfold SerialReader.run_body, put.
  destruct r as [data|e|]; [| discriminate H |].
  - destruct (text_mode t).
    + destruct data as [|b0 data].
      * exists []. rewrite app_nil_r. split; [reflexivity|]. split; [reflexivity | cbn; lia].
      * destruct (String.eqb _ _).
        -- exists []. rewrite app_nil_r. split; [reflexivity|]. split; [reflexivity | cbn; lia].
        -- exists [("value", Py.strip (Py.decode_ascii_ignore (b0 :: data)))].
           split; [reflexivity|]. split; [reflexivity | cbn; lia].
    + destruct data as [|b0 data].
      * exists []. rewrite app_nil_r. split; [reflexivity|]. split; [reflexivity | cbn; lia].
      * exists [("value", Py.str b0)].
        split; [reflexivity|]. split; [reflexivity | cbn; lia].
  - exists []. rewrite app_nil_r. split; [reflexivity|]. split; [reflexivity | cbn; lia].
Qed.

Lemma tick_in_loop (r : read_outcome) (t : SerialReader) (q : list msg) :
  pc t = Looping -> _stop t = false ->
  reader_do (Step (TTick r)) (t, q) =
    (if fst (SerialReader.run_body r t q)
     then SerialReader.run_exit t (snd (SerialReader.run_body r t q))
     else (t, snd (SerialReader.run_body r t q))).
Proof.
  intros Hl Hs. cbn [reader_do fst snd]. unfold SerialReader.step. rewrite Hl.
  unfold SerialReader.run_iter. rewrite Hs.
  destruct (SerialReader.run_body r t q) as [[|] q']; reflexivity.
Qed.

(** While no read raises [serial.SerialException] and [stop] is not
    called, the thread stays in the loop as it is and only readings are
    put, at most one per read. *)
Lemma loop_exec_values (reads : list read_outcome) (t : SerialReader) (q : list msg) :
  pc t = Looping -> _stop t = false ->
  existsb is_serial_exception reads = false ->
  exists vals,
    reader_exec (map (fun r => Step (TTick r)) reads) (t, q) = (t, (q ++ vals)%list) /\
    forallb is_value vals = true /\ (length vals <= length reads)%nat.
Proof.
  intros Hl Hs. revert q. induction reads as [|r reads IH]; intros q Hex.
  - exists []. rewrite app_nil_r. split; [reflexivity|]. split; [reflexivity | cbn; lia].
  - cbn [existsb] in Hex. apply orb_false_iff in Hex as [Hr Hex].
    destruct (run_body_values r t q Hr) as (v1 & E1 & Hv1 & Hn1).
    destruct (IH (q ++ v1)%list Hex) as (v2 & E2 & Hv2 & Hn2).
    exists (v1 ++ v2)%list.
    unfold reader_exec in *. cbn [map fold_left].
    rewrite (tick_in_loop r t q Hl Hs), E1. cbn [fst snd].
    rewrite E2, app_assoc.
    split; [reflexivity|]. split.
    + rewrite forallb_app, Hv1, Hv2. reflexivity.
    + rewrite length_app. cbn [length]. lia.
Qed.

Lemma run_opened (reads : list read_outcome) (t0 : SerialReader) (q : list msg) :
  pc t0 = NotStarted ->
  run OpenOk reads t0 q =
    reader_exec (map (fun r => Step (TTick r)) reads)
      (set_pc (set_ser t0 (Some {| is_open := true |})) Looping,
       put ("__STATUS__",
            "Connected: " ++ port t0 ++ " @ " ++ Py.str (baud t0) ++ " ("
            ++ (if text_mode t0 then "text" else "raw 8-bit") ++ ")") q).
Proof.
  intros H0. unfold run, reader_exec. cbn [fold_left reader_do fst snd].
  unfold SerialReader.start. rewrite H0.
  unfold SerialReader.step. cbn [pc set_pc SerialReader.run_open]. reflexivity.
Qed.

(** X9: after a successful open, read timeouts, empty lines and
    exceptions other than [serial.SerialException] never end the read
    loop: as long as [stop] is not called, [run] is still in the loop with
    the port open, and after the "Connected" status all it has put on the
    queue are readings, at most one per read and never a status or error
    message. *)
Theorem loop_survives_timeouts_and_exceptions
    (reads : list read_outcome) (t0 : SerialReader) (q : list msg) :
  pc t0 = NotStarted -> _stop t0 = false ->
  existsb is_serial_exception reads = false ->
  exists vals,
    run OpenOk reads t0 q =
      (set_pc (set_ser t0 (Some {| is_open := true |})) Looping,
       List.app
         (put ("__STATUS__",
               "Connected: " ++ port t0 ++ " @ " ++ Py.str (baud t0) ++ " ("
               ++ (if text_mode t0 then "text" else "raw 8-bit") ++ ")") q)
         vals) /\
    forallb is_value vals = true /\ (length vals <= length reads)%nat.
Proof.
  intros H0 Hs Hex. rewrite (run_opened reads t0 q H0).
  apply loop_exec_values; [reflexivity | exact Hs | exact Hex].
Qed.

Lemma loop_survives_timeouts_and_exceptions_witness :
  exists vals,
    run OpenOk [ReadReturns []; ReadException; ReadReturns [200]; ReadReturns []]
        (SerialReader.init "COM8" 9600 false) [] =
      (set_pc (set_ser (SerialReader.init "COM8" 9600 false) (Some {| is_open := true |})) Looping,
       List.app
         (put ("__STATUS__",
               "Connected: " ++ port (SerialReader.init "COM8" 9600 false) ++ " @ "
               ++ Py.str (baud (SerialReader.init "COM8" 9600 false)) ++ " ("
               ++ (if text_mode (SerialReader.init "COM8" 9600 false) then "text" else "raw 8-bit")
               ++ ")") [])
         vals) /\
    forallb is_value vals = true /\
    (length vals <= length [ReadReturns []; ReadException; ReadReturns [200%Z]; ReadReturns []])%nat.
Proof.
  apply (loop_survives_timeouts_and_exceptions
           [ReadReturns []; ReadException; ReadReturns [200]; ReadReturns []]
           (SerialReader.init "COM8" 9600 false) []);
    reflexivity.
Defined.

(** ** Raw mode, from the byte to the cell *)

Lemma bytes_checked :
  forallb (fun n : nat =>
             match Py.int (Py.str (Z.of_nat n)) with
             | Some v => v =? Z.of_nat n
             | None => false
             end) (seq 0 256) = true.
Proof. vm_compute. reflexivity. Qed.

(** [int(str(b))] is [b] for the value of a byte. *)
Lemma byte_round_trip (b : Z) : is_byte b = true -> Py.int (Py.str b) = Some b.
Proof.
  unfold is_byte. intros H. apply andb_true_iff in H as [H0 H1].
  pose proof (proj1 (List.forallb_forall _ _) bytes_checked (Z.to_nat b)) as Hc.
  cbv beta in Hc. rewrite Z2Nat.id in Hc by lia.
  assert (Hin : In (Z.to_nat b) (seq 0 256)) by (apply in_seq; lia).
  specialize (Hc Hin).
  destruct (Py.int (Py.str b)) as [v|]; [|discriminate Hc].
  f_equal. lia.
Qed.

(** X10: in raw mode a byte read from the port becomes one reading whose
    text is the decimal form of the byte and parses back to the byte, so
    the cell under the cursor shows that text with the colour of the
    byte's value. *)
Theorem raw_byte_colour (b : Z) (t : SerialReader) (q : list msg) (a : GridApp) :
  is_byte b = true -> text_mode t = false -> grid_ok a -> cursor_ok a ->
  SerialReader.run_body (ReadReturns [b]) t q = (false, put ("value", Py.str b) q) /\
  Py.int (Py.str b) = Some b /\
  exists a',
    on_message ("value", Py.str b) a = Some a' /\
    cell (index a) a' = Some {| text := Py.str b; bg := color_rule b |}.
Proof.
  intros Hb Ht Hg Hc.
  split; [unfold SerialReader.run_body; rewrite Ht; reflexivity|].
  split; [exact (byte_round_trip b Hb)|].
  destruct (on_message_value (Py.str b) a Hg Hc) as (a' & H1 & _ & _ & _ & Hcell & _).
  exists a'. split; [exact H1|].
  rewrite Hcell, (byte_round_trip b Hb). reflexivity.
Qed.

Lemma raw_byte_colour_witness :
  SerialReader.run_body (ReadReturns [255]) (SerialReader.init "COM8" 9600 false) []
    = (false, put ("value", Py.str 255) []) /\
  Py.int (Py.str 255) = Some 255 /\
  exists a',
    on_message ("value", Py.str 255) (GridApp_init []) = Some a' /\
    cell (index (GridApp_init [])) a' = Some {| text := Py.str 255; bg := color_rule 255 |}.
Proof.
  apply (raw_byte_colour 255 (SerialReader.init "COM8" 9600 false) [] (GridApp_init [])).
  - reflexivity.
  - reflexivity.
  - apply grid_ok_init.
  - unfold cursor_ok, TOTAL_CELLS, ROWS, COLS. cbn. lia.
Defined.

Lemma raw_reads_exec (bs : list Z) (t : SerialReader) (q : list msg) :
  pc t = Looping -> _stop t = false -> text_mode t = false ->
  reader_exec (map (fun r => Step (TTick r)) (map (fun b => ReadReturns [b]) bs)) (t, q)
    = (t, (q ++ map reading_msg bs)%list).
Proof.
  intros Hl Hs Ht. revert q. induction bs as [|b bs IH]; intros q.
  - cbn. rewrite app_nil_r. reflexivity.
  - unfold reader_exec in *. cbn [map fold_left].
    rewrite (tick_in_loop (ReadReturns [b]) t q Hl Hs).
    unfold SerialReader.run_body. rewrite Ht. cbn [fst snd]. unfold put.
    fold (reading_msg b). rewrite IH, <- app_assoc. reflexivity.
Qed.

Lemma count_values_readings (bs : list Z) :
  count_values (map reading_msg bs) = length bs.
Proof.
  unfold count_values. induction bs as [|b bs IH]; [reflexivity|].
  cbn [map List.filter]. change (is_value (reading_msg b)) with true.
  cbn [length]. rewrite IH. reflexivity.
Qed.

Lemma GridApp_init_index (ports : list string) : index (GridApp_init ports) = 0.
Proof.
  unfold GridApp_init, refresh_ports. destruct (negb _); [destruct ports|]; reflexivity.
Qed.

(** X11: in raw mode, when the port has opened and the device sends up
    to 200 bytes that the controller then consumes from its initial
    state, cell [k] of the grid shows the decimal text of the [k]-th byte
    with the colour of its value (red below 20, yellow below 60, else
    green), and the cursor has advanced by the number of bytes. *)
Theorem raw_bytes_on_grid (bs : list Z) (port : string) (baud : Z) (ports : list string) :
  forallb is_byte bs = true -> (length bs <= 200)%nat ->
  exists a',
    process_loop
      (snd (run OpenOk (map (fun b => ReadReturns [b]) bs) (SerialReader.init port baud false) []))
      (GridApp_init ports) = Some a' /\
    (forall k b, bs !! k = Some b ->
       cell (Z.of_nat k) a' = Some {| text := Py.str b; bg := color_rule b |}) /\
    index a' = Z.of_nat (length bs) mod TOTAL_CELLS.
Proof.
  intros Hb Hlen.
  rewrite (run_opened _ (SerialReader.init port baud false) [] eq_refl).
  rewrite raw_reads_exec by reflexivity. cbn [snd]. unfold put at 1. cbn [Datatypes.app].
  set (status := ("__STATUS__", _)).
  pose proof (grid_ok_init ports) as Hg.
  assert (Hc : cursor_ok (GridApp_init ports)).
  { unfold cursor_ok. rewrite GridApp_init_index. unfold TOTAL_CELLS, ROWS, COLS. lia. }
  destruct (process_loop_round_robin
              (status :: map reading_msg bs) (GridApp_init ports) Hg Hc)
    as (a' & Hrun & _ & Hidx & _).
  exists a'. split; [exact Hrun|]. split.
  - intros k b Hk.
    pose proof (lookup_lt_Some _ _ _ Hk) as Hklt.
    pose proof (take_drop_middle bs k b Hk) as Esplit.
    destruct (reading_in_cell
                (status :: map reading_msg (take k bs))
                (map reading_msg (drop (S k) bs))
                (Py.str b) (GridApp_init ports) Hg Hc) as (a2 & Hrun2 & Hcell).
    { rewrite count_values_readings, length_drop. lia. }
    assert (E : ((status :: map reading_msg (take k bs))
                   ++ reading_msg b :: map reading_msg (drop (S k) bs))%list
                = status :: map reading_msg bs).
    { rewrite <- Esplit at 3. rewrite map_app. reflexivity. }
    assert (Hrun2' : process_loop (status :: map reading_msg bs)
                       (GridApp_init ports) = Some a2)
      by (rewrite <- E; exact Hrun2).
    rewrite Hrun in Hrun2'. injection Hrun2' as <-.
    assert (Ecount : count_values (status :: map reading_msg (take k bs)) = k).
    { unfold count_values. cbn [List.filter]. change (is_value status) with false.
      cbv iota. fold (count_values (map reading_msg (take k bs))).
      rewrite count_values_readings, length_take. lia. }
    assert (Hcell' : cell (Z.of_nat k) a' =
                     Some {| text := Py.str b;
                             bg := color_rule (match Py.int (Py.str b) with
                                               | Some v => v
                                               | None => 0
                                               end) |}).
    { rewrite <- Hcell. f_equal.
      transitivity ((index (GridApp_init ports) + Z.of_nat k) mod TOTAL_CELLS).
      - rewrite GridApp_init_index, Z.add_0_l, Z.mod_small
          by (unfold TOTAL_CELLS, ROWS, COLS; lia). reflexivity.
      - rewrite <- Ecount at 1. reflexivity. }
    rewrite Hcell'.
    assert (Hbyte : is_byte b = true).
    { apply (proj1 (List.forallb_forall is_byte bs) Hb).
      apply list_elem_of_In. eapply list_elem_of_lookup_2. exact Hk. }
    rewrite (byte_round_trip b Hbyte). reflexivity.
  - rewrite Hidx, GridApp_init_index. unfold count_values. cbn [List.filter].
    change (is_value status) with false. cbv iota.
    fold (count_values (map reading_msg bs)).
    rewrite count_values_readings. reflexivity.
Qed.

Lemma raw_bytes_on_grid_witness :
  exists a',
    process_loop
      (snd (run OpenOk (map (fun b => ReadReturns [b]) [5; 25; 65; 15])
                (SerialReader.init "COM8" 9600 false) []))
      (GridApp_init []) = Some a' /\
    (forall k b, [5; 25; 65; 15] !! k = Some b ->
       cell (Z.of_nat k) a' = Some {| text := Py.str b; bg := color_rule b |}) /\
    index a' = Z.of_nat (length [5; 25; 65; 15]) mod TOTAL_CELLS.
Proof.
  apply (raw_bytes_on_grid [5; 25; 65; 15] "COM8" 9600 []).
  - reflexivity.
  - cbn. lia.
Defined.

(** ** Text mode: what a line becomes *)

Lemma lstrip_head (sp : ascii -> bool) (s : string) (c : ascii) (r : string) :
  Py.lstrip sp s = String c r -> sp c = false.
Proof.
  induction s as [|c0 s IH]; [discriminate|].
  cbn [Py.lstrip]. destruct (sp c0) eqn:E; [exact IH|].
  intros [= <- _]. exact E.
Qed.

Lemma rstrip_keep_head (sp : ascii -> bool) (c : ascii) (r : string) :
  sp c = false -> Py.rstrip sp (String c r) = String c (Py.rstrip sp r).
Proof.
  intros H. cbn [Py.rstrip]. destruct (Py.rstrip sp r); [rewrite H|]; reflexivity.
Qed.

Lemma rstrip_idempotent (sp : ascii -> bool) (s : string) :
  Py.rstrip sp (Py.rstrip sp s) = Py.rstrip sp s.
Proof.
  induction s as [|c s IH]; [reflexivity|].
  cbn [Py.rstrip]. destruct (Py.rstrip sp s) as [|c' r'] eqn:E.
  - destruct (sp c) eqn:Ec; [reflexivity|].
    cbn [Py.rstrip]. rewrite Ec. reflexivity.
  - change (Py.rstrip sp (String c (String c' r')))
      with (match Py.rstrip sp (String c' r') with
            | EmptyString => if sp c then EmptyString else String c EmptyString
            | String x y => String c (String x y)
            end).
    rewrite IH. reflexivity.
Qed.

Lemma strip_idempotent_is_str_space (s : string) :
  Py.rstrip Py.is_str_space (Py.lstrip Py.is_str_space
    (Py.rstrip Py.is_str_space (Py.lstrip Py.is_str_space s)))
  = Py.rstrip Py.is_str_space (Py.lstrip Py.is_str_space s).
Proof.
  destruct (Py.lstrip Py.is_str_space s) as [|c r] eqn:E; [reflexivity|].
  pose proof (lstrip_head _ _ _ _ E) as Hc.
  rewrite (rstrip_keep_head _ c r Hc).
  cbn [Py.lstrip]. rewrite Hc.
  rewrite (rstrip_keep_head _ c _ Hc), rstrip_idempotent. reflexivity.
Qed.

Lemma head_cp_ascii (c : ascii) (r : string) :
  is_ascii_char c = true -> Py.head_cp (String c r) = (Py.byte c, 1%nat).
Proof.
  unfold is_ascii_char. intros H. apply Nat.ltb_lt in H.
  unfold Py.head_cp.
  destruct (Py.byte c <? 128) eqn:E; [reflexivity|].
  unfold Py.byte in E. lia.
Qed.

(** On ASCII text [str.strip] is the removal of the ten ASCII white-space
    characters at both ends. *)
Lemma lstrip_from_ascii (s : string) :
  string_forallb is_ascii_char s = true ->
  Py.lstrip_from 0 s = Py.lstrip Py.is_str_space s.
Proof.
  induction s as [|c s IH]; [reflexivity|].
  cbn [string_forallb]. intros H. apply andb_true_iff in H as [Hc H].
  cbn [Py.lstrip_from Py.lstrip]. rewrite (head_cp_ascii c s Hc).
  cbv iota beta. change (1 - 1)%nat with 0%nat. unfold Py.is_str_space at 1.
  destruct (Py.is_space_cp (Py.byte c)); [exact (IH H) | reflexivity].
Qed.

Lemma all_space_from_ascii (s : string) :
  string_forallb is_ascii_char s = true ->
  Py.all_space_from 0 s = string_forallb Py.is_str_space s.
Proof.
  induction s as [|c s IH]; [reflexivity|].
  cbn [string_forallb]. intros H. apply andb_true_iff in H as [Hc H].
  cbn [Py.all_space_from]. rewrite (head_cp_ascii c s Hc).
  cbv iota beta. change (1 - 1)%nat with 0%nat.
  rewrite (IH H). reflexivity.
Qed.

Lemma rstrip_empty (sp : ascii -> bool) (s : string) :
  string_forallb sp s = true -> Py.rstrip sp s = EmptyString.
Proof.
  induction s as [|c s IH]; [reflexivity|].
  cbn [string_forallb Py.rstrip]. intros H. apply andb_true_iff in H as [Hc H].
  rewrite (IH H), Hc. reflexivity.
Qed.

Lemma rstrip_keeps (sp : ascii -> bool) (c : ascii) (s : string) :
  string_forallb sp (String c s) = false ->
  Py.rstrip sp (String c s) = String c (Py.rstrip sp s).
Proof.
  revert c. induction s as [|c' s IH]; intros c H.
  - cbn in *. rewrite andb_true_r in H. rewrite H. reflexivity.
  - cbn [string_forallb] in H.
    destruct (string_forallb sp (String c' s)) eqn:E.
    + cbn [string_forallb] in E. rewrite E, andb_true_r in H.
      apply rstrip_keep_head. exact H.
    + change (Py.rstrip sp (String c (String c' s)))
        with (match Py.rstrip sp (String c' s) with
              | EmptyString => if sp c then EmptyString else String c EmptyString
              | String x y => String c (String x y)
              end).
      rewrite (IH c' E). reflexivity.
Qed.

Lemma rstrip_space_ascii (s : string) :
  string_forallb is_ascii_char s = true ->
  Py.rstrip_space s = Py.rstrip Py.is_str_space s.
Proof.
  induction s as [|c s IH]; [reflexivity|].
  intros H. pose proof H as H'. cbn [string_forallb] in H'.
  apply andb_true_iff in H' as [_ Hs].
  cbn [Py.rstrip_space]. rewrite (all_space_from_ascii (String c s) H).
  destruct (string_forallb Py.is_str_space (String c s)) eqn:E.
  - symmetry. apply rstrip_empty. exact E.
  - rewrite (rstrip_keeps _ c s E), (IH Hs). reflexivity.
Qed.

Lemma lstrip_forallb (p sp : ascii -> bool) (s : string) :
  string_forallb p s = true -> string_forallb p (Py.lstrip sp s) = true.
Proof.
  induction s as [|c s IH]; [reflexivity|].
  cbn [Py.lstrip]. destruct (sp c); [|exact id].
  cbn [string_forallb]. intros H. apply andb_true_iff in H as [_ H]. exact (IH H).
Qed.

Lemma rstrip_forallb (p sp : ascii -> bool) (s : string) :
  string_forallb p s = true -> string_forallb p (Py.rstrip sp s) = true.
Proof.
  induction s as [|c s IH]; [reflexivity|].
  cbn [string_forallb Py.rstrip]. intros H. apply andb_true_iff in H as [Hc H].
  specialize (IH H).
  destruct (Py.rstrip sp s) as [|c' r'].
  - destruct (sp c); [reflexivity|]. cbn [string_forallb]. rewrite Hc. reflexivity.
  - cbn [string_forallb] in *. rewrite Hc. exact IH.
Qed.

Lemma decode_ascii_ignore_ascii (bs : list Z) :
  string_forallb is_ascii_char (Py.decode_ascii_ignore bs) = true.
Proof.
  induction bs as [|b bs IH]; [reflexivity|].
  cbn [Py.decode_ascii_ignore].
  destruct ((0 <=? b) && (b <? 128)) eqn:E; [|exact IH].
  apply andb_true_iff in E as [E0 E1].
  cbn [string_forallb]. rewrite IH, andb_true_r.
  unfold is_ascii_char. rewrite nat_ascii_embedding by lia.
  apply Nat.ltb_lt. lia.
Qed.

Lemma strip_ascii (s : string) :
  string_forallb is_ascii_char s = true ->
  Py.strip s = Py.rstrip Py.is_str_space (Py.lstrip Py.is_str_space s).
Proof.
  intros H. unfold Py.strip.
  rewrite (lstrip_from_ascii s H).
  apply rstrip_space_ascii, lstrip_forallb. exact H.
Qed.

Lemma strip_idempotent_ascii (s : string) :
  string_forallb is_ascii_char s = true -> Py.strip (Py.strip s) = Py.strip s.
Proof.
  intros H. rewrite (strip_ascii s H).
  rewrite strip_ascii by (apply rstrip_forallb, lstrip_forallb; exact H).
  apply strip_idempotent_is_str_space.
Qed.

(** X12: in text mode a line read from the port becomes at most one
    reading: its text is the line decoded as ASCII, bytes above 127
    dropped, and stripped; nothing is put when that text is empty (a
    timeout, a blank line).  The text of a reading therefore is never
    empty, has no white space at either end and holds ASCII characters
    only. *)
Theorem text_line_reading (data : list Z) (t : SerialReader) (q : list msg) :
  text_mode t = true ->
  SerialReader.run_body (ReadReturns data) t q =
    (false,
     if String.eqb (Py.strip (Py.decode_ascii_ignore data)) ""
     then q
     else put ("value", Py.strip (Py.decode_ascii_ignore data)) q) /\
  Py.strip (Py.strip (Py.decode_ascii_ignore data)) = Py.strip (Py.decode_ascii_ignore data) /\
  string_forallb is_ascii_char (Py.strip (Py.decode_ascii_ignore data)) = true.
Proof.
  intros Ht. split; [|split].
  - unfold SerialReader.run_body. rewrite Ht.
    destruct data as [|b0 data]; [reflexivity|].
    destruct (String.eqb _ _); reflexivity.
  - apply strip_idempotent_ascii, decode_ascii_ignore_ascii.
  - rewrite strip_ascii by apply decode_ascii_ignore_ascii.
    apply rstrip_forallb, lstrip_forallb, decode_ascii_ignore_ascii.
Qed.

Lemma text_line_reading_witness :
  SerialReader.run_body (ReadReturns [32; 53; 55; 200; 13; 10]) (SerialReader.init "COM8" 9600 true) [] =
    (false,
     if String.eqb (Py.strip (Py.decode_ascii_ignore [32; 53; 55; 200; 13; 10])) ""
     then []
     else put ("value", Py.strip (Py.decode_ascii_ignore [32; 53; 55; 200; 13; 10])) []) /\
  Py.strip (Py.strip (Py.decode_ascii_ignore [32; 53; 55; 200; 13; 10]))
    = Py.strip (Py.decode_ascii_ignore [32; 53; 55; 200; 13; 10]) /\
  string_forallb is_ascii_char (Py.strip (Py.decode_ascii_ignore [32; 53; 55; 200; 13; 10])) = true.
Proof.
  apply (text_line_reading [32; 53; 55; 200; 13; 10] (SerialReader.init "COM8" 9600 true) []).
  reflexivity.
Defined.

(** ** The reader reference, the port list and a clean disconnect *)

Lemma on_thread_reader (i : nat) (f : SerialReader -> list msg -> SerialReader * list msg)
    (w : World) :
  reader (app (on_thread i f w)) = reader (app w).
Proof.
  unfold on_thread. destruct (threads w !! i) as [t|]; [|reflexivity].
  destruct (f t (queue (app w))) as [t' q]. reflexivity.
Qed.

(** X13: only Connect and Disconnect change which reader the controller
    holds: editing the fields, refreshing the ports, the timer callback
    and every step of a thread leave the reference as it is, so that a
    reader whose thread has returned on an error stays the current reader
    until one of the two buttons is pressed. *)
Theorem reader_changes_only_by_buttons (a : action) (w w' : World) :
  a <> Connect -> a <> Disconnect ->
  do_action a w = Some w' ->
  reader (app w') = reader (app w).
Proof.
  intros Hc Hd H. destruct a as [s|s|ports| | | |j ev]; cbn [do_action] in H.
  - injection H as <-. reflexivity.
  - injection H as <-. reflexivity.
  - injection H as <-. cbn [on_app app]. apply refresh_ports_reader.
  - contradiction.
  - contradiction.
  - destruct (process_queue (app w)) as [a'|] eqn:E; [|discriminate H].
    cbn [mbind option_bind] in H. injection H as <-.
    cbn [app]. exact (process_loop_reader _ _ _ E).
  - injection H as <-. apply on_thread_reader.
Qed.

Lemma reader_changes_only_by_buttons_witness :
  reader (app (on_thread 0 (SerialReader.step (TTick (ReadSerialException "gone")))
                 connected_world))
  = reader (app connected_world).
Proof.
  apply (reader_changes_only_by_buttons
           (Thread 0 (TTick (ReadSerialException "gone"))) connected_world).
  - discriminate.
  - discriminate.
  - reflexivity.
Defined.

Lemma existsb_eqb_In (cur : string) (ports : list string) :
  existsb (String.eqb cur) ports = true <-> In cur ports.
Proof.
  rewrite existsb_exists. split.
  - intros (x & Hx & E). apply String.eqb_eq in E. subst x. exact Hx.
  - intros H. exists cur. split; [exact H | apply String.eqb_refl].
Qed.

(** X14: [refresh_ports] keeps the port field when it names a listed
    port or when no port is listed, and otherwise sets it to the first
    listed port; so after a refresh with a non-empty list the field names
    a listed port.  It changes nothing but the port field, and a second
    refresh with the same list changes nothing. *)
Theorem refresh_ports_selection (ports : list string) (a : GridApp) :
  (In (port_var a) ports \/ ports = [] -> refresh_ports ports a = a) /\
  (~ In (port_var a) ports -> port_var (refresh_ports ports a) = hd (port_var a) ports) /\
  (ports <> [] -> In (port_var (refresh_ports ports a)) ports) /\
  refresh_ports ports a = set_port_var a (port_var (refresh_ports ports a)) /\
  refresh_ports ports (refresh_ports ports a) = refresh_ports ports a.
Proof.
  assert (Hkeep : In (port_var a) ports \/ ports = [] -> refresh_ports ports a = a).
  { intros [H| ->]; [|reflexivity].
    unfold refresh_ports. apply existsb_eqb_In in H. rewrite H. reflexivity. }
  assert (Hset : ~ In (port_var a) ports ->
                 refresh_ports ports a = set_port_var a (hd (port_var a) ports)).
  { intros H. unfold refresh_ports.
    destruct (existsb (String.eqb (port_var a)) ports) eqn:E.
    - apply existsb_eqb_In in E. contradiction.
    - destruct ports; [destruct a|]; reflexivity. }
  assert (Hin : ports <> [] -> In (port_var (refresh_ports ports a)) ports).
  { intros Hne. destruct (in_dec string_dec (port_var a) ports) as [H|H].
    - rewrite Hkeep by (left; exact H). exact H.
    - rewrite (Hset H). destruct ports as [|p0 rest]; [contradiction|]. left. reflexivity. }
  split; [exact Hkeep|].
  split; [intros H; rewrite (Hset H); reflexivity|].
  split; [exact Hin|].
  split.
  - destruct (in_dec string_dec (port_var a) ports) as [H|H].
    + rewrite Hkeep by (left; exact H). destruct a; reflexivity.
    + rewrite (Hset H). reflexivity.
  - destruct ports as [|p0 rest]; [reflexivity|].
    unfold refresh_ports at 1.
    assert (E : existsb (String.eqb (port_var (refresh_ports (p0 :: rest) a))) (p0 :: rest) = true)
      by (apply existsb_eqb_In, Hin; discriminate).
    rewrite E. reflexivity.
Qed.

(** X15: a clean disconnect.  When the port has opened, the reads have
    raised no [serial.SerialException] and [stop] is then called, the
    thread returns at its next test of the loop condition without reading
    again: the port is closed, and the queue has received the
    "Connected" status, then readings only, then the status
    "Disconnected" as its last message. *)
Theorem clean_disconnect
    (reads : list read_outcome) (r_last : read_outcome) (t0 : SerialReader) (q : list msg) :
  pc t0 = NotStarted -> _stop t0 = false ->
  existsb is_serial_exception reads = false ->
  exists vals,
    reader_exec [CallStop; Step (TTick r_last)] (run OpenOk reads t0 q) =
      ({| port := port t0; baud := baud t0; text_mode := text_mode t0;
          _stop := true; ser := Some {| is_open := false |}; pc := Finished |},
       put ("__STATUS__", "Disconnected")
         (List.app
            (put ("__STATUS__",
                  "Connected: " ++ port t0 ++ " @ " ++ Py.str (baud t0) ++ " ("
                  ++ (if text_mode t0 then "text" else "raw 8-bit") ++ ")") q)
            vals)) /\
    forallb is_value vals = true.
Proof.
  intros H0 Hs Hex. rewrite (run_opened reads t0 q H0).
  destruct (loop_exec_values reads
              (set_pc (set_ser t0 (Some {| is_open := true |})) Looping)
              (put ("__STATUS__",
                    "Connected: " ++ port t0 ++ " @ " ++ Py.str (baud t0) ++ " ("
                    ++ (if text_mode t0 then "text" else "raw 8-bit") ++ ")") q)
              eq_refl Hs Hex) as (vals & E & Hv & _).
  exists vals. rewrite E. split; [reflexivity | exact Hv].
Qed.

Lemma clean_disconnect_witness :
  exists vals,
    reader_exec [CallStop; Step (TTick (ReadSerialException "port closed"))]
                (run OpenOk [ReadReturns [7]; ReadReturns []] (SerialReader.init "COM8" 9600 false) []) =
      ({| port := port (SerialReader.init "COM8" 9600 false);
          baud := baud (SerialReader.init "COM8" 9600 false);
          text_mode := text_mode (SerialReader.init "COM8" 9600 false);
          _stop := true; ser := Some {| is_open := false |}; pc := Finished |},
       put ("__STATUS__", "Disconnected")
         (List.app
            (put ("__STATUS__",
                  "Connected: " ++ port (SerialReader.init "COM8" 9600 false) ++ " @ "
                  ++ Py.str (baud (SerialReader.init "COM8" 9600 false)) ++ " ("
                  ++ (if text_mode (SerialReader.init "COM8" 9600 false) then "text" else "raw 8-bit")
                  ++ ")") [])
            vals)) /\
    forallb is_value vals = true.
Proof.
  apply (clean_disconnect [ReadReturns [7]; ReadReturns []] (ReadSerialException "port closed")
           (SerialReader.init "COM8" 9600 false) []);
    reflexivity.
Defined.

(** ** Threads and the queue *)

(** X16: a step of a reader thread only appends to the queue: the
    messages already queued stay in place and in order, at most two are
    added, and a thread that has not started or has returned adds
    none. *)
Theorem thread_step_appends (ev : thread_event) (t : SerialReader) (q : list msg) :
  exists out,
    snd (SerialReader.step ev t q) = (q ++ out)%list /\
    (length out <= 2)%nat /\
    match pc t with
    | NotStarted | Finished => out = [] /\ fst (SerialReader.step ev t q) = t
    | Opening | Looping => True
    end.
Proof.
  unfold SerialReader.step.
  destruct (pc t) eqn:E, ev as [o|r]; cbn [fst snd];
    try (exists []; rewrite app_nil_r; repeat split; cbn; lia).
  - destruct o as [|e|]; cbn [SerialReader.run_open fst snd];
      [eexists [_] | eexists [_] | exists []; rewrite app_nil_r]; repeat split; cbn; lia.
  - unfold SerialReader.run_iter, SerialReader.run_exit, SerialReader.run_body, put.
    destruct (_stop t); [eexists [_]; repeat split; cbn; lia|].
    destruct r as [data|e|].
    + destruct (text_mode t), data as [|b0 data];
        try (exists []; rewrite app_nil_r; repeat split; cbn; lia).
      * destruct (String.eqb _ _); cbn [fst snd];
          [exists []; rewrite app_nil_r | eexists [_]]; repeat split; cbn; lia.
      * eexists [_]; repeat split; cbn; lia.
    + cbn [snd]. rewrite <- app_assoc. eexists [_; _]. repeat split; cbn; lia.
    + exists []. rewrite app_nil_r. repeat split; cbn; lia.
Qed.

Lemma status_texts_app (l1 l2 : list msg) :
  status_texts (l1 ++ l2)%list = (status_texts l1 ++ status_texts l2)%list.
Proof. unfold status_texts. apply flat_map_app. Qed.

Lemma on_thread_at (i : nat) (f : SerialReader -> list msg -> SerialReader * list msg)
    (w : World) (t : SerialReader) :
  threads w !! i = Some t ->
  on_thread i f w =
    {| app := set_queue (app w) (snd (f t (queue (app w))));
       threads := <[i := fst (f t (queue (app w)))]> (threads w) |}.
Proof.
  intros H. unfold on_thread. rewrite H.
  destruct (f t (queue (app w))) as [t' q]. reflexivity.
Qed.

Lemma poll_status (w : World) (msgs : list msg) (m : msg) :
  reachable w -> queue (app w) = (msgs ++ [m])%list ->
  (String.eqb (fst m) "__ERROR__" || String.eqb (fst m) "__STATUS__") = true ->
  exists w',
    do_action Poll w = Some w' /\
    status_var (app w') = List.last (status_texts [m]) "" /\
    queue (app w') = [] /\ reader (app w') = reader (app w) /\ threads w' = threads w.
Proof.
  intros Hr Hq Hm. destruct (reachable_grid w Hr) as [Hg Hc].
  destruct (process_loop_round_robin (queue (app w)) (app w) Hg Hc)
    as (a' & Hrun & _ & _ & _ & _ & Hrd).
  destruct (process_loop_readouts (queue (app w)) (app w) a' Hrun) as (_ & Hs & Hq' & _).
  assert (Hempty : queue a' = []).
  { rewrite Hq', Hq. destruct msgs; reflexivity. }
  exists {| app := a'; threads := threads w |}.
  cbn [do_action app threads]. unfold process_queue. rewrite Hrun. cbn [mbind option_bind].
  split; [reflexivity|]. split; [|repeat split; assumption].
  rewrite Hs, Hq, status_texts_app, last_app_default.
  unfold status_texts. cbn [flat_map]. rewrite app_nil_r.
  destruct (String.eqb (fst m) "__ERROR__"); [reflexivity|].
  destruct (String.eqb (fst m) "__STATUS__"); [reflexivity | discriminate Hm].
Qed.

(** X17: Disconnect, end to end.  From a reachable state whose current
    reader is in its read loop, pressing Disconnect, letting the thread
    reach its next loop test and letting the timer fire leaves no current
    reader, the thread returned with its stop event set and its port
    closed, the queue empty and the status text "Disconnected". *)
Theorem disconnect_end_to_end (w : World) (i : nat) (t : SerialReader) (r : read_outcome) :
  reachable w -> reader (app w) = Some i -> threads w !! i = Some t -> pc t = Looping ->
  exists w',
    do_actions [Disconnect; Thread i (TTick r); Poll] w = Some w' /\
    status_var (app w') = "Disconnected" /\
    reader (app w') = None /\
    queue (app w') = [] /\
    exists t',
      threads w' !! i = Some t' /\ pc t' = Finished /\ _stop t' = true /\
      ser t' = match ser t with Some _ => Some {| is_open := false |} | None => None end.
Proof.
  intros Hr Hi Ht Hl.
  set (t1 := SerialReader.close_if_open (set__stop t true)).
  assert (Ht1 : threads (disconnect w) !! i = Some t1).
  { rewrite disconnect_threads, Hi, Ht.
    apply list_lookup_insert_eq. eapply lookup_lt_Some. exact Ht. }
  destruct (close_if_open_fields (set__stop t true)) as (Hs1 & Hp1 & _).
  assert (Estep : SerialReader.step (TTick r) t1 (queue (app (disconnect w)))
                  = (set_pc (SerialReader.close_if_open t1) Finished,
                     put ("__STATUS__", "Disconnected") (queue (app (disconnect w))))).
  { unfold SerialReader.step. fold t1 in Hp1, Hs1. rewrite Hp1. cbn [pc set__stop]. rewrite Hl.
    unfold SerialReader.run_iter. rewrite Hs1. reflexivity. }
  set (w2 := on_thread i (SerialReader.step (TTick r)) (disconnect w)).
  assert (Hr2 : reachable w2).
  { apply (reachable_step (Thread i (TTick r)) (disconnect w)); [|reflexivity].
    apply (reachable_step Disconnect w); [exact Hr | reflexivity]. }
  assert (E2 : w2 = {| app := set_queue (app (disconnect w))
                               (put ("__STATUS__", "Disconnected") (queue (app (disconnect w))));
                       threads := <[i := set_pc (SerialReader.close_if_open t1) Finished]>
                                    (threads (disconnect w)) |}).
  { unfold w2. rewrite (on_thread_at i _ _ t1 Ht1), Estep. reflexivity. }
  destruct (poll_status w2 (queue (app (disconnect w))) ("__STATUS__", "Disconnected") Hr2)
    as (w' & Hpoll & Hst & Hq & Hrd & Hth).
  { rewrite E2. reflexivity. }
  { reflexivity. }
  exists w'. split.
  { change (do_actions [Disconnect; Thread i (TTick r); Poll] w)
      with (do_action Poll w2 ≫= (fun w' => Some w')).
    rewrite Hpoll. reflexivity. }
  split; [exact Hst|].
  split.
  { rewrite Hrd. unfold w2. rewrite on_thread_reader. apply disconnect_reader. }
  split; [exact Hq|].
  exists (set_pc (SerialReader.close_if_open t1) Finished).
  split.
  { rewrite Hth, E2. cbn [threads].
    apply list_lookup_insert_eq. eapply lookup_lt_Some. exact Ht1. }
  destruct (close_if_open_fields t1) as (Hs2 & _).
  split; [reflexivity|].
  split; [cbn [_stop set_pc]; rewrite Hs2; fold t1 in Hs1; rewrite Hs1; reflexivity|].
  cbn [ser set_pc]. unfold t1. rewrite close_if_open_closed, close_if_open_not_open.
  reflexivity.
Qed.

Lemma connected_world_is_reachable : reachable connected_world.
Proof.
  apply (reachable_step (Thread 0 (TOpen OpenOk)) (connect (World_init []))).
  - apply (reachable_step Connect (World_init [])); [apply reachable_init | reflexivity].
  - reflexivity.
Qed.

Lemma disconnect_end_to_end_witness :
  exists w',
    do_actions [Disconnect; Thread 0 (TTick (ReadReturns [])); Poll] connected_world = Some w' /\
    status_var (app w') = "Disconnected" /\
    reader (app w') = None /\
    queue (app w') = [] /\
    exists t',
      threads w' !! 0%nat = Some t' /\ pc t' = Finished /\ _stop t' = true /\
      ser t' = match ser (set_pc (set_ser (SerialReader.start (SerialReader.init "COM8" 115200 false))
                                          (Some {| is_open := true |})) Looping) with
               | Some _ => Some {| is_open := false |}
               | None => None
               end.
Proof.
  apply (disconnect_end_to_end connected_world 0
           (set_pc (set_ser (SerialReader.start (SerialReader.init "COM8" 115200 false))
                            (Some {| is_open := true |})) Looping)
           (ReadReturns [])).
  - exact connected_world_is_reachable.
  - reflexivity.
  - reflexivity.
  - reflexivity.
Defined.

(** X18: an open failure, end to end.  From a reachable state whose
    current reader is about to open its port, when the open raises
    [serial.SerialException] and the timer fires, the status text is
    "Error: Open failed: <reason>", the queue is empty, the thread has
    returned, and the controller still holds the reader. *)
Theorem open_failure_end_to_end (w : World) (i : nat) (t : SerialReader) (e : string) :
  reachable w -> reader (app w) = Some i -> threads w !! i = Some t -> pc t = Opening ->
  exists w',
    do_actions [Thread i (TOpen (OpenSerialException e)); Poll] w = Some w' /\
    status_var (app w') = "Error: Open failed: " ++ e /\
    queue (app w') = [] /\
    reader (app w') = Some i /\
    threads w' !! i = Some (set_pc t Finished).
Proof.
  intros Hr Hi Ht Hp.
  set (w1 := on_thread i (SerialReader.step (TOpen (OpenSerialException e))) w).
  assert (Hr1 : reachable w1).
  { apply (reachable_step (Thread i (TOpen (OpenSerialException e))) w);
      [exact Hr | reflexivity]. }
  assert (E1 : w1 = {| app := set_queue (app w)
                               (put ("__ERROR__", "Open failed: " ++ e) (queue (app w)));
                       threads := <[i := set_pc t Finished]> (threads w) |}).
  { unfold w1. rewrite (on_thread_at i _ _ t Ht).
    unfold SerialReader.step. rewrite Hp. reflexivity. }
  destruct (poll_status w1 (queue (app w)) ("__ERROR__", "Open failed: " ++ e) Hr1)
    as (w' & Hpoll & Hst & Hq & Hrd & Hth).
  { rewrite E1. reflexivity. }
  { reflexivity. }
  exists w'. split.
  { change (do_actions [Thread i (TOpen (OpenSerialException e)); Poll] w)
      with (do_action Poll w1 ≫= (fun w' => Some w')).
    rewrite Hpoll. reflexivity. }
  split; [exact Hst|]. split; [exact Hq|].
  split.
  { rewrite Hrd. unfold w1. rewrite on_thread_reader. exact Hi. }
  rewrite Hth, E1. cbn [threads].
  apply list_lookup_insert_eq. eapply lookup_lt_Some. exact Ht.
Qed.

Lemma open_failure_end_to_end_witness :
  exists w',
    do_actions [Thread 0 (TOpen (OpenSerialException "no such port")); Poll]
               (connect (World_init [])) = Some w' /\
    status_var (app w') = "Error: Open failed: " ++ "no such port" /\
    queue (app w') = [] /\
    reader (app w') = Some 0%nat /\
    threads w' !! 0%nat
      = Some (set_pc (SerialReader.start (SerialReader.init "COM8" 115200 false)) Finished).
Proof.
  apply (open_failure_end_to_end (connect (World_init [])) 0
           (SerialReader.start (SerialReader.init "COM8" 115200 false)) "no such port").
  - apply (reachable_step Connect (World_init [])); [apply reachable_init | reflexivity].
  - reflexivity.
  - reflexivity.
  - reflexivity.
Defined.
